(** * Colorcore routing: a shallow embedding of [colorcore/routing.py]

  The definitions come first: the slice of [bitcoin.core] the formatter
  reads, the values, exceptions and calls of the Python program, the effects
  of a handler, then [Router] (command-line grammar, formatter, command
  execution) and [RpcServer] (the HTTP handler).  Facts about them follow. *)

From Stdlib Require Import ZArith Ascii String List.
From stdpp Require Import gmap strings list fin_maps sorting pretty.

Set Warnings "-register-all".

Open Scope string_scope.
Open Scope list_scope.
Open Scope Z_scope.

(** ** bitcoin.core: the transaction object model read by the formatter *)

Module bitcoin.

(** A [bytes] object. *)
Abbreviation bytes := (list Byte.byte).

Record COutPoint := { hash : bytes; n : Z }.
Record CTxIn := { prevout : COutPoint; scriptSig : bytes; nSequence : Z }.
Record CTxOut := { nValue : Z; scriptPubKey : bytes }.
Record CTransaction :=
  { vin : list CTxIn; vout : list CTxOut; nLockTime : Z; nVersion : Z }.

(** One of the digits [0123456789abcdef]. *)
Definition hexdigit (d : N) : ascii :=
  if (d <? 10)%N then ascii_of_N (48 + d) else ascii_of_N (87 + d).

(** [b2x]: [binascii.hexlify(b).decode('utf8')], two lower-case digits a byte. *)
Fixpoint b2x (b : bytes) : string :=
  match b with
  | [] => EmptyString
  | x :: b' =>
      String (hexdigit (Byte.to_N x / 16))
        (String (hexdigit (Byte.to_N x mod 16)) (b2x b'))
  end.

(** [b2lx]: the hex text of the bytes in reverse order, [b2x(b[::-1])]. *)
Definition b2lx (b : bytes) : string := b2x (rev b).

End bitcoin.

(** ** Python values, exceptions and calls *)

Module Py.

(** The values that reach the router: what an operation receives and what it
    returns.  [VInstance] is the controller object built for the invocation
    that is running (the first argument of every operation). *)
Inductive PyValue :=
| VNone
| VBool (b : bool)
| VInt (z : Z)
| VStr (s : string)
| VBytes (b : bitcoin.bytes)
| VList (l : list PyValue)
| VDict (items : list (string * PyValue))
| VTransaction (tx : bitcoin.CTransaction)
| VInstance.

(** A key of a [dict]: a [str] or a [bytes] object.  The two are never equal,
    whatever their characters. *)
Inductive Key :=
| KStr (s : string)
| KBytes (b : bitcoin.bytes).

#[global] Instance byte_eq_dec : EqDecision Byte.byte := Byte.byte_eq_dec.

#[global] Instance byte_countable : Countable Byte.byte :=
  inj_countable Byte.to_N Byte.of_N Byte.of_to_N.

#[global] Instance Key_eq_dec : EqDecision Key.
Proof. solve_decision. Defined.

#[global] Instance Key_countable : Countable Key :=
  inj_countable'
    (fun key => match key with KStr s => inl s | KBytes b => inr b end)
    (fun code => match code with inl s => KStr s | inr b => KBytes b end)
    (fun key => match key with KStr _ | KBytes _ => eq_refl end).

#[global] Instance KBytes_inj : Inj (=) (=) KBytes.
Proof. by intros b b' [= ->]. Qed.

(** [isinstance(value, bitcoin.core.CTransaction)] *)
Definition is_transaction (value : PyValue) : bool :=
  match value with VTransaction _ => true | _ => false end.

(** [value == text] for a [str] literal [text]: only a [str] with the same
    characters is equal to it; a list holding that [str] is not. *)
Definition eq_str (value : PyValue) (text : string) : bool :=
  match value with VStr s => String.eqb s text | _ => false end.

(** The handlers of [routing.py] name four exception classes.  The class of
    an exception is recorded as the first clause, in the order of the
    source, that catches it; [BaseExceptionOnly] stands for what neither
    [except Exception] nor the clauses before it catch ([SystemExit],
    [KeyboardInterrupt], [GeneratorExit]). *)
Inductive ExnClass :=
| TypeError
| ControllerError
| TransactionBuilderError
| OtherException
| BaseExceptionOnly.

(** An exception object: its class, [type(error).__name__], [str(error)]. *)
Record Exn := { class : ExnClass; __name__ : string; str : string }.

Inductive Outcome (A : Type) :=
| Return (a : A)
| Raise (e : Exn).
Arguments Return {A} a.
Arguments Raise {A} e.

Definition type_error (text : string) : Exn :=
  {| class := TypeError; __name__ := "TypeError"; str := text |}.

Definition index_error (text : string) : Exn :=
  {| class := OtherException; __name__ := "IndexError"; str := text |}.

(** [s[0]] on a [str]. *)
Definition getitem0 (s : string) : Outcome ascii :=
  match s with
  | EmptyString => Raise (index_error "string index out of range")
  | String c _ => Return c
  end.

(** [s[0] == '_'] for a non-empty [s]: the private-name convention. *)
Definition is_private (s : string) : bool :=
  match s with String "_" _ => true | _ => false end.

(** What [json.dumps] accepts: it raises [TypeError] on [bytes] and on
    objects such as a transaction. *)
Fixpoint json_serializable (value : PyValue) : bool :=
  match value with
  | VNone | VBool _ | VInt _ | VStr _ => true
  | VBytes _ | VTransaction _ | VInstance => false
  | VList l => forallb json_serializable l
  | VDict items =>
      forallb (fun item => let '(_, v) := item in json_serializable v) items
  end.

(** ** Signatures, as [inspect.signature] shows them *)

Inductive ParamKind :=
| POSITIONAL_ONLY
| POSITIONAL_OR_KEYWORD
| VAR_POSITIONAL
| KEYWORD_ONLY
| VAR_KEYWORD.

#[global] Instance ParamKind_eq_dec : EqDecision ParamKind.
Proof. solve_decision. Defined.

(** [name] is a Python identifier; [default] and [annotation] are [None]
    where [inspect] has [empty]. *)
Record Param :=
  { name : string;
    kind : ParamKind;
    default : option PyValue;
    annotation : option string }.

(** The controller object an operation runs on.  Of the constructor
    arguments [(configuration, cache_factory, tx_parser, event_loop)] only
    the formatter is built by the router per invocation; the others are the
    process-wide collaborators, which a body closes over. *)
Record Instance := { tx_parser : PyValue -> Outcome PyValue }.

(** A function of the controller class: doc string, declared parameters and
    body.  The body is given the instance and the bound arguments and runs
    to its result or to the exception it raises. *)
Record PyFunction :=
  { __doc__ : option string;
    parameters : list Param;
    body : Instance -> gmap string PyValue -> Outcome PyValue }.

Definition takes_positional (p : Param) : bool :=
  bool_decide (kind p = POSITIONAL_ONLY ∨ kind p = POSITIONAL_OR_KEYWORD).

Definition takes_keyword (p : Param) : bool :=
  bool_decide (kind p = POSITIONAL_OR_KEYWORD ∨ kind p = KEYWORD_ONLY).

Definition star_name (k : ParamKind) (ps : list Param) : option string :=
  name <$> head (filter (fun p => kind p = k) ps).

(** Parameters left unbound take their default; one without a default is a
    missing argument. *)
Fixpoint fill_defaults (ps : list Param) (env : gmap string PyValue)
  : Outcome (gmap string PyValue) :=
  match ps with
  | [] => Return env
  | p :: ps' =>
      if takes_positional p || takes_keyword p then
        match env !! name p, default p with
        | Some _, _ => fill_defaults ps' env
        | None, Some d => fill_defaults ps' (<[name p := d]> env)
        | None, None =>
            Raise (type_error ("missing required argument: " +:+ name p))
        end
      else fill_defaults ps' env
  end.

(** Argument binding of a call with positional and keyword arguments:
    positional arguments fill the positional parameters from the left, each
    keyword goes to the parameter of its name, what is left over goes to the
    starred parameters if the signature has them and is a [TypeError] if not. *)
Definition bind_arguments (ps : list Param)
    (args : list PyValue) (kwargs : gmap string PyValue)
  : Outcome (gmap string PyValue) :=
  let slots := name <$> List.filter takes_positional ps in
  let by_position : gmap string PyValue := list_to_map (zip slots args) in
  let extra_args := drop (length slots) args in
  let keywords := name <$> List.filter takes_keyword ps in
  let named := filter (fun kv => kv.1 ∈ keywords) kwargs in
  let extra_kwargs := filter (fun kv => kv.1 ∉ keywords) kwargs in
  if negb (bool_decide (length extra_args = 0%nat))
     && bool_decide (star_name VAR_POSITIONAL ps = None)
  then Raise (type_error "too many positional arguments")
  else if bool_decide (dom by_position ∩ dom named ≠ ∅)
  then Raise (type_error "got multiple values for argument")
  else if bool_decide (dom extra_kwargs ≠ ∅)
          && bool_decide (star_name VAR_KEYWORD ps = None)
  then Raise (type_error "got an unexpected keyword argument")
  else
    match fill_defaults ps (by_position ∪ named) with
    | Raise e => Raise e
    | Return env =>
        let env :=
          match star_name VAR_POSITIONAL ps with
          | Some a => <[a := VList extra_args]> env
          | None => env
          end in
        let env :=
          match star_name VAR_KEYWORD ps with
          | Some k => <[k := VDict (map_to_list extra_kwargs)]> env
          | None => env
          end in
        Return env
    end.

(** A call of [function] on the controller instance with further positional
    and keyword arguments, run to completion. *)
Definition call (function : PyFunction) (controller : Instance)
    (args : list PyValue) (kwargs : gmap string PyValue) : Outcome PyValue :=
  match bind_arguments (parameters function) (VInstance :: args) kwargs with
  | Raise e => Raise e
  | Return env => body function controller env
  end.

(** The keywords of a call written with a [dict] after two stars: every key
    has to be a [str], or the call raises [TypeError] before the callee is
    entered.  (The handler that catches it does not read its text.) *)
Definition keywords (d : gmap Key PyValue) : Outcome (gmap string PyValue) :=
  match mapM (fun item : Key * PyValue =>
                match item.1 with
                | KStr s => Some (s, item.2)
                | KBytes _ => None
                end) (map_to_list d) with
  | Some items => Return (list_to_map items)
  | None => Raise (type_error "keywords must be strings")
  end.

(** A loop over [items] that threads a state and stops at the first
    exception. *)
Fixpoint for_each {A S : Type} (body : S -> A -> Outcome S) (items : list A)
    (state : S) : Outcome S :=
  match items with
  | [] => Return state
  | item :: items' =>
      match body state item with
      | Raise e => Raise e
      | Return state' => for_each body items' state'
      end
  end.

(** Failures of library code whose text depends on the version of the
    library: [json.dumps] on a value it cannot write, [argparse] on an option
    string that is already in use, a call of a value that is not callable.
    The text is taken as given. *)
Inductive LibraryError :=
| not_serializable (value : PyValue)
| conflicting_option (option_string : string)
| not_callable (value : PyValue).

(** An attribute of the controller class, as [getattr] gives it: a function
    defined in the class, [None], or any other object.  Of the last, only
    what calling it on the controller instance with keywords does is kept
    (a [TypeError] when the object is not callable). *)
Inductive Attribute :=
| attr_function (f : PyFunction)
| attr_none
| attr_object (call : Instance -> gmap string PyValue -> Outcome PyValue).

(** [type.mro], the one attribute without a leading underscore that every
    class has from [type]: called on the class with an argument, it raises
    [TypeError].  (The handler that catches it does not read its text.) *)
Definition type_mro : Attribute :=
  attr_object (fun _ _ => Raise (type_error "mro() takes no arguments (1 given)")).

End Py.

(** ** Effects: what a handler does, in order, and how it ends *)

Module Eff.

(** The observable steps of the two front ends. *)
Inductive Event :=
| new_controller (tx_parser : Py.PyValue -> Py.Outcome Py.PyValue)
    (** [self.controller(configuration, cache_factory, tx_parser, event_loop)] *)
| call_operation (function : Py.PyFunction) (kwargs : gmap string Py.PyValue)
    (** the operation called on that controller with these keyword arguments *)
| call_attribute (name : string) (kwargs : gmap string Py.PyValue)
    (** an attribute of the controller class that is not a function, called
        on that controller with these keyword arguments *)
| output_write (text : string)
    (** [self.output.write(text)] *)
| output_write_json (result : Py.PyValue)
    (** [self.output.write(json.dumps(result, indent=4, ...) + LF)] *)
| print_usage
| create_server (port : Z)
    (** the RPC server created on [port] *)
| run_forever
    (** the event loop left running; nothing follows *)
| send_headers (status : Z)
    (** [create_response]: status line and [Content-Type: text/json] sent *)
| response_write_json (data : Py.PyValue)
    (** [json_response]: the JSON text of [data] written, then end of body *).

(** The events that are a call of an attribute of the controller class. *)
Definition is_call (event : Event) : bool :=
  match event with
  | call_operation _ _ | call_attribute _ _ => true
  | _ => false
  end.

(** A computation: the events it caused, then its result or the exception
    that left it. *)
Definition M (A : Type) : Type := list Event * Py.Outcome A.

#[global] Instance M_ret : MRet M := fun A a => ([], Py.Return a).

#[global] Instance M_bind : MBind M := fun A B k m =>
  match m with
  | (trace, Py.Return a) => let '(trace', r) := k a in (trace ++ trace', r)
  | (trace, Py.Raise e) => (trace, Py.Raise e)
  end.

Definition emit (ev : Event) : M unit := ([ev], Py.Return tt).

Definition lift {A} (o : Py.Outcome A) : M A := ([], o).

(** [try: m except ...]: [handler e] is the body of the first clause that
    catches [e], or [None] when no clause does. *)
Definition try_except {A} (m : M A) (handler : Py.Exn -> option (M A)) : M A :=
  match m with
  | (trace, Py.Raise e) =>
      match handler e with
      | Some (trace', r) => (trace ++ trace', r)
      | None => (trace, Py.Raise e)
      end
  | done => done
  end.

(** [json.dumps(data, ...)].  The text written is not modelled, the value
    stands for it. *)
Definition json_dumps (message : Py.LibraryError -> string) (data : Py.PyValue)
  : M Py.PyValue :=
  if Py.json_serializable data then mret data
  else lift (Py.Raise (Py.type_error (message (Py.not_serializable data)))).

End Eff.

(** The line feed that ends every line the router writes. *)
Definition LF : string := String "010"%char EmptyString.

(** The operation provider: the attributes of the controller class by name,
    those it inherits from [object] and [type] left out. *)
Abbreviation Controller := (gmap string Py.Attribute).

(** [getattr(controller, name, None)] for a name that does not start with an
    underscore: the attribute of the class if it has one of that name, and
    otherwise what every class has from [type].  The result is [None] where
    Python's is. *)
Definition getattr (controller : Controller) (name : string)
  : option Py.Attribute :=
  match controller !! name with
  | Some Py.attr_none => None
  | Some attribute => Some attribute
  | None => if String.eqb name "mro" then Some Py.type_mro else None
  end.

(** [class Configuration], the part the router reads. *)
Record Configuration := { rpc_enabled : bool; rpc_port : Z }.


(** ** class Router *)

Module Router.
Import Py Eff.

(** One [add_argument] call on a subparser.  A positional has the parameter
    name as destination; an option is declared with [nargs='?'] and a
    default. *)
Inductive Argument :=
| positional (dest : string) (help : option string)
| optional (option_string : string) (help : option string) (default : PyValue).

(** What [set_defaults(_func=...)] stores. *)
Inductive Func :=
| func_run_rpc_server
| func_execute_operation (function : PyFunction).

(** A subparser: its help text, its [_func] default and its arguments in the
    order they were added. *)
Record Subparser :=
  { help : option string;
    _func : option Func;
    arguments : list Argument }.

Definition new_parser (help : option string) : Subparser :=
  {| help := help; _func := None; arguments := [] |}.

Definition set_defaults (func : Func) (subparser : Subparser) : Subparser :=
  {| help := help subparser; _func := Some func;
     arguments := arguments subparser |}.

(** The option strings in use in a subparser: those of the help action every
    parser is created with, and those of the options added since. *)
Definition option_strings (subparser : Subparser) : list string :=
  ["-h"; "--help"]
  ++ omap (fun argument =>
             match argument with
             | optional option_string _ _ => Some option_string
             | positional _ _ => None
             end) (arguments subparser).

Definition extra_parameters : list (string * string * PyValue) :=
  [ ("txformat",
     "Format of transactions if a transaction is returned ('raw' or 'json')",
     VStr "json") ].

(** The router object: the controller class, the configuration and the
    subparsers of [self._parser] by command name.  Registering a name that
    is already there replaces the parser under that name. *)
Record t :=
  { controller : Controller;
    configuration : Configuration;
    subparsers : gmap string Subparser }.

(** [inspect.getmembers(controller, predicate=inspect.isfunction)]: the
    functions with their names, sorted by name. *)
Definition by_name (a b : string * PyFunction) : Prop :=
  String.leb a.1 b.1 = true.

#[global] Instance by_name_dec a b : Decision (by_name a b).
Proof. unfold by_name. apply _. Defined.

Definition isfunction (member : string * Attribute) : option (string * PyFunction) :=
  match member.2 with
  | attr_function f => Some (member.1, f)
  | _ => None
  end.

Definition getmembers (controller : Controller) : list (string * PyFunction) :=
  merge_sort by_name (omap isfunction (map_to_list controller)).

Definition server_parser : Subparser :=
  set_defaults func_run_rpc_server
    (new_parser (Some "Starts the Colorcore JSON/RPC server.")).

Section Library.

(** [transaction.serialize()] of [bitcoin.core]: the canonical byte sequence
    of a transaction, or the exception raised for a transaction that has
    none (a field that does not fit its packed width).  It is library code
    the router calls and is taken as given. *)
Variable serialize : bitcoin.CTransaction -> Outcome bitcoin.bytes.

(** The texts of the library's errors. *)
Variable message : LibraryError -> string.

Definition argument_error (option_string : string) : Exn :=
  {| class := OtherException; __name__ := "ArgumentError";
     str := message (conflicting_option option_string) |}.

(** [subparser.add_argument(...)]: an option whose option string is already
    in use is refused with [ArgumentError]. *)
Definition add_argument (argument : Argument) (subparser : Subparser)
  : Outcome Subparser :=
  let added :=
    {| help := help subparser; _func := _func subparser;
       arguments := arguments subparser ++ [argument] |} in
  match argument with
  | optional option_string _ _ =>
      if bool_decide (option_string ∈ option_strings subparser)
      then Raise (argument_error option_string)
      else Return added
  | positional _ _ => Return added
  end.

(** The body of the loop over [func_signature.parameters.items()]. *)
Definition add_parameter (subparser : Subparser) (arg : Param)
  : Outcome Subparser :=
  if String.eqb (name arg) "self" then Return subparser
  else if negb (bool_decide (kind arg = POSITIONAL_OR_KEYWORD)) then Return subparser
  else
    let arg_help := annotation arg in
    match default arg with
    | None => add_argument (positional (name arg) arg_help) subparser
    | Some value =>
        add_argument (optional ("--" +:+ name arg) arg_help value) subparser
    end.

(** The body of the loop over [self.extra_parameters]. *)
Definition add_extra_parameter (subparser : Subparser)
    (extra : string * string * PyValue) : Outcome Subparser :=
  let '(name, help, default) := extra in
  add_argument (optional ("--" +:+ name) (Some help) default) subparser.

Definition _create_subparser (subparser : Subparser) (func : PyFunction)
  : Outcome Subparser :=
  let subparser := set_defaults (func_execute_operation func) subparser in
  match for_each add_parameter (parameters func) subparser with
  | Raise e => Raise e
  | Return subparser => for_each add_extra_parameter extra_parameters subparser
  end.

(** The body of the loop over the members. *)
Definition add_member (subparsers : gmap string Subparser)
    (member : string * PyFunction) : Outcome (gmap string Subparser) :=
  let '(name, function) := member in
  match getitem0 name with
  | Raise e => Raise e
  | Return first =>
      if negb (Ascii.eqb first "_") then
        let subparser := new_parser (__doc__ function) in
        match _create_subparser subparser function with
        | Raise e => Raise e
        | Return subparser => Return (<[name := subparser]> subparsers)
        end
      else Return subparsers
  end.

Definition __init__ (controller : Controller) (configuration : Configuration)
  : Outcome t :=
  let subparsers : gmap string Subparser := {[ "server" := server_parser ]} in
  match for_each add_member (getmembers controller) subparsers with
  | Raise e => Raise e
  | Return subparsers =>
      Return {| controller := controller; configuration := configuration;
                subparsers := subparsers |}
  end.

Definition input_json (input : bitcoin.CTxIn) : PyValue :=
  VDict
    [ ("txid", VStr (bitcoin.b2lx (bitcoin.hash (bitcoin.prevout input))));
      ("vout", VInt (bitcoin.n (bitcoin.prevout input)));
      ("sequence", VInt (bitcoin.nSequence input));
      ("scriptSig", VDict [("hex", VStr (bitcoin.b2x (bitcoin.scriptSig input)))]) ].

Definition output_json (index : nat) (output : bitcoin.CTxOut) : PyValue :=
  VDict
    [ ("value", VInt (bitcoin.nValue output));
      ("n", VInt (Z.of_nat index));
      ("scriptPubKey",
       VDict [("hex", VStr (bitcoin.b2x (bitcoin.scriptPubKey output)))]) ].

Definition get_transaction_formatter (format : PyValue)
  : PyValue -> Outcome PyValue :=
  if eq_str format "json" then
    fun transaction =>
      match transaction with
      | VTransaction tx =>
          Return
            (VDict
               [ ("version", VInt (bitcoin.nVersion tx));
                 ("locktime", VInt (bitcoin.nLockTime tx));
                 ("vin", VList (input_json <$> bitcoin.vin tx));
                 ("vout", VList (imap output_json (bitcoin.vout tx))) ])
      | _ => Return transaction
      end
  else
    fun transaction =>
      match transaction with
      | VTransaction tx =>
          match serialize tx with
          | Return serialized => Return (VStr (bitcoin.b2x serialized))
          | Raise e => Raise e
          end
      | _ => Return transaction
      end.

(** The function [_execute_operation] returns, called by [parse] with the
    parsed arguments as keywords: [txformat] is its keyword-only parameter,
    the other keywords go on to the operation. *)
Definition _execute_operation (function : PyFunction)
    (args : gmap string PyValue) : M unit :=
  match args !! "txformat" with
  | None =>
      lift (Raise (type_error "missing 1 required keyword-only argument: 'txformat'"))
  | Some txformat =>
      let kwargs := delete "txformat" args in
      let controller := {| tx_parser := get_transaction_formatter txformat |} in
      _ ← emit (new_controller (tx_parser controller));
      try_except
        (_ ← emit (call_operation function kwargs);
         result ← lift (call function controller [] kwargs);
         text ← json_dumps message result;
         emit (output_write_json text))
        (fun error =>
           match class error with
           | ControllerError =>
               Some (emit (output_write ("Error: " +:+ str error +:+ LF)))
           | TransactionBuilderError =>
               Some (emit (output_write ("Error: " +:+ __name__ error +:+ LF)))
           | _ => None
           end)
  end.

Definition _run_rpc_server (self : t) : M unit :=
  if negb (rpc_enabled (configuration self)) then
    emit (output_write ("Error: RPC must be enabled in the configuration." +:+ LF))
  else
    let port := rpc_port (configuration self) in
    _ ← emit (create_server port);
    _ ← emit (output_write
                ("Starting RPC server on port " +:+ pretty port +:+ "..." +:+ LF));
    emit run_forever.

(** *** [self._parser.parse_args]

    [argparse] is library code.  Its behaviour is written out for argument
    vectors made of a command name, plain words and option strings spelled in
    full; an argument that starts with a dash and is not such an option string
    (an abbreviation, [--name=value], [-h], a negative number) is
    [unmodelled]. *)
Inductive Parsed :=
| namespace (args : gmap string PyValue) (func : option Func)
| usage_error
| unmodelled.

Fixpoint lstrip_dash (s : string) : string :=
  match s with
  | String "-" s' => lstrip_dash s'
  | _ => s
  end.

Fixpoint dash_to_underscore (s : string) : string :=
  match s with
  | EmptyString => EmptyString
  | String c s' =>
      String (if Ascii.eqb c "-" then "_"%char else c) (dash_to_underscore s')
  end.

(** The attribute of the namespace an argument is stored under. *)
Definition dest_of (argument : Argument) : string :=
  match argument with
  | positional dest _ => dest
  | optional option_string _ _ => dash_to_underscore (lstrip_dash option_string)
  end.

Definition starts_with_dash (s : string) : bool :=
  match s with String "-" _ => true | _ => false end.

(** The namespace before any argument is read: going through the arguments
    in the order they were added, each one whose destination is not there yet
    puts its default there, an option the declared one, a positional [None]
    (which its word replaces whenever parsing succeeds). *)
Definition initial_namespace (arguments : list Argument) : gmap string PyValue :=
  foldl (fun ns argument =>
           match ns !! dest_of argument with
           | Some _ => ns
           | None =>
               match argument with
               | positional dest _ => <[dest := VNone]> ns
               | optional _ _ default => <[dest_of argument := default]> ns
               end
           end) ∅ arguments.

Definition positionals (arguments : list Argument) : list string :=
  omap (fun argument =>
          match argument with
          | positional dest _ => Some dest
          | optional _ _ _ => None
          end) arguments.

Definition find_option (option_string : string) (arguments : list Argument)
  : option string :=
  dest_of <$>
    head (List.filter
            (fun argument =>
               match argument with
               | optional o _ _ => String.eqb o option_string
               | positional _ _ => false
               end) arguments).

(** An option takes the next argument as its value unless that one starts
    with a dash, and [None] when it has no value; a plain word fills the next
    positional, and is an extra when none is left.  At the end a positional
    left unfilled or an extra is an error ([inl None]). *)
Fixpoint parse_arguments (arguments : list Argument) (pending : list string)
    (extras : bool) (ns : gmap string PyValue) (argv : list string)
  : option (gmap string PyValue) + unit :=
  match argv with
  | [] =>
      match pending with
      | [] => if extras then inl None else inl (Some ns)
      | _ :: _ => inl None
      end
  | word :: argv' =>
      if starts_with_dash word then
        match find_option word arguments with
        | None => inr tt
        | Some dest =>
            match argv' with
            | value :: argv'' =>
                if starts_with_dash value
                then parse_arguments arguments pending extras
                       (<[dest := VNone]> ns) argv'
                else parse_arguments arguments pending extras
                       (<[dest := VStr value]> ns) argv''
            | [] =>
                parse_arguments arguments pending extras
                  (<[dest := VNone]> ns) argv'
            end
        end
      else
        match pending with
        | dest :: pending' =>
            parse_arguments arguments pending' extras
              (<[dest := VStr word]> ns) argv'
        | [] => parse_arguments arguments pending true ns argv'
        end
  end.

(** The namespace holds the arguments of the command; the [_func] the
    subparser was given with [set_defaults] comes beside it. *)
Definition parse_args (self : t) (args : list string) : Parsed :=
  match args with
  | [] => namespace ∅ None
  | command :: argv =>
      if starts_with_dash command then unmodelled
      else
        match subparsers self !! command with
        | None => usage_error
        | Some subparser =>
            let arguments := arguments subparser in
            match parse_arguments arguments (positionals arguments) false
                    (initial_namespace arguments) argv with
            | inr _ => unmodelled
            | inl None => usage_error
            | inl (Some ns) => namespace ns (_func subparser)
            end
        end
  end.

(** [parser.error]: the usage message goes to the error stream and the
    process exits with status 2. *)
Definition system_exit : Exn :=
  {| class := BaseExceptionOnly; __name__ := "SystemExit"; str := "2" |}.

(** [parse]: [None] where the argument vector is outside the part of
    [argparse] written out above.  [args.pop('_func', ...)] gives the
    function of the subparser unless an argument of the command is stored
    under [_func] itself: then it gives that argument's value, and calling it
    raises [TypeError]. *)
Definition parse (self : t) (args : list string) : option (M unit) :=
  match parse_args self args with
  | unmodelled => None
  | usage_error => Some (lift (Raise system_exit))
  | namespace args func =>
      match args !! "_func" with
      | Some value =>
          Some (lift (Raise (type_error (message (not_callable value)))))
      | None =>
          match func with
          | None => Some (emit print_usage)
          | Some func_run_rpc_server => Some (_run_rpc_server self)
          | Some (func_execute_operation function) =>
              Some (_execute_operation function args)
          end
      end
  end.

End Library.

End Router.

(** ** class RpcServer *)

Module RpcServer.
Import Py Eff.

(** [\w] on the characters of a request path.  The path is the request
    target of the HTTP request line, which is ASCII text: the word characters
    are the letters, the digits and the underscore. *)
Definition is_word (c : ascii) : bool :=
  let k := N_of_ascii c in
  ((48 <=? k) && (k <=? 57) || (65 <=? k) && (k <=? 90)
   || (97 <=? k) && (k <=? 122) || (k =? 95))%N.

(** A text made of word characters only. *)
Fixpoint all_word (s : string) : bool :=
  match s with
  | EmptyString => true
  | String c s' => is_word c && all_word s'
  end.

(** A text without a line feed, as the target of a request line is. *)
Fixpoint no_line_feed (s : string) : bool :=
  match s with
  | EmptyString => true
  | String c s' => negb (Ascii.eqb c "010") && no_line_feed s'
  end.

(** The longest run of word characters at the start of [s], and the rest. *)
Fixpoint span_word (s : string) : string * string :=
  match s with
  | String c s' =>
      if is_word c then let '(run, rest) := span_word s' in (String c run, rest)
      else (EmptyString, s)
  | EmptyString => (EmptyString, EmptyString)
  end.

(** [re.search('^/(?P<operation>\w+)$', path)] followed by
    [url.group('operation')].  The pattern is anchored at both ends, and [$]
    matches at the end of the text and also just before a line feed that ends
    it; [\w+] takes the whole run of word characters, since what follows the
    group must not be one. *)
Definition search_operation (path : string) : option string :=
  match path with
  | String "/" after =>
      let '(operation, rest) := span_word after in
      if String.eqb operation "" then None
      else if String.eqb rest "" || String.eqb rest LF then Some operation
      else None
  | _ => None
  end.

(** The values [urllib.parse.parse_qs] gives for one field name of a body
    read as [bytes]: a list of [bytes] objects. *)
Definition values (decoded : list bitcoin.bytes) : PyValue :=
  VList (VBytes <$> decoded).

Definition create_response (status : Z) : M unit := emit (send_headers status).

Section Handler.

Variable serialize : bitcoin.CTransaction -> Outcome bitcoin.bytes.

Variable message : LibraryError -> string.

Definition json_response (data : PyValue) : M unit :=
  text ← json_dumps message data;
  emit (response_write_json text).

Definition error (code : Z) (error : string) : M unit :=
  _ ← create_response 400;
  json_response
    (VDict [("error", VDict [("code", VInt code); ("message", VStr error)])]).

(** The call of the attribute found under [name], on the controller
    instance, with the fields of the body as keywords. *)
Definition invoke (name : string) (operation : Attribute)
    (controller : Instance) (post_vars : gmap Key PyValue) : M PyValue :=
  kwargs ← lift (keywords post_vars);
  match operation with
  | attr_function f =>
      _ ← emit (call_operation f kwargs);
      lift (call f controller [] kwargs)
  | attr_object call =>
      _ ← emit (call_attribute name kwargs);
      lift (call controller kwargs)
  | attr_none => lift (Raise (type_error "'NoneType' object is not callable"))
  end.

(** [handle_request(message, payload)].  [path] is [message.path]; [payload]
    is the outcome of reading the body, which gives [bytes], and decoding it
    with [parse_qs]: the fields by name, names and values being [bytes]
    objects, or the exception raised on the way.  Connection keep-alive after
    a success is left out. *)
Definition handle_request (controller : Controller) (path : string)
    (payload : Outcome (gmap bitcoin.bytes (list bitcoin.bytes))) : M unit :=
  try_except
    (match search_operation path with
     | None => error 102 "The request path is invalid"
     | Some operation_name =>
         let operation := getattr controller operation_name in
         invalid ←
           (if String.eqb operation_name "" then mret true
            else
              first ← lift (getitem0 operation_name);
              if Ascii.eqb first "_" then mret true
              else mret (match operation with None => true | Some _ => false end));
         match invalid, operation with
         | false, Some operation =>
             decoded ← lift payload;
             let post_vars : gmap Key PyValue := kmap KBytes (values <$> decoded) in
             let format :=
               match post_vars !! KStr "txformat" with
               | Some value => value
               | None => VStr "json"
               end in
             let post_vars := delete (KStr "txformat") post_vars in
             let tx_parser := Router.get_transaction_formatter serialize format in
             let controller := {| tx_parser := tx_parser |} in
             _ ← emit (new_controller tx_parser);
             result ←
               try_except
                 (result ← invoke operation_name operation controller post_vars;
                  mret (Some result))
                 (fun raised =>
                    match class raised with
                    | TypeError =>
                        Some (_ ← error 104 "Invalid parameters provided";
                              mret None)
                    | ControllerError =>
                        Some (_ ← error 201 (str raised); mret None)
                    | TransactionBuilderError =>
                        Some (_ ← error 301 (__name__ raised); mret None)
                    | _ => None
                    end);
             match result with
             | None => mret tt
             | Some result =>
                 _ ← create_response 200;
                 json_response result
             end
         | _, _ =>
             error 103 ("The operation name " +:+ operation_name +:+ " is invalid")
         end
     end)
    (fun exception =>
       match class exception with
       | BaseExceptionOnly => None
       | _ =>
           Some (_ ← create_response 500;
                 json_response
                   (VDict
                      [("error",
                        VDict [("code", VInt 0);
                               ("message", VStr "Internal server error");
                               ("details", VStr (str exception))])]))
       end).

End Handler.

End RpcServer.

(** ** Sample inputs for the examples *)

Module Samples.
Import Py.

(** [struct.error], raised when a number does not fit the format it is packed
    with. *)
Definition struct_error : Exn :=
  {| class := OtherException; __name__ := "error"; str := "argument out of range" |}.

Fixpoint little_endian (width : nat) (z : Z) : bitcoin.bytes :=
  match width with
  | O => []
  | S width' =>
      match Byte.of_N (Z.to_N (z mod 256)) with
      | Some b => b :: little_endian width' (z / 256)
      | None => []
      end
  end.

(** [struct.pack] with the formats [<i], [<I] and [<q]. *)
Definition pack (signed : bool) (width : nat) (z : Z) : Outcome bitcoin.bytes :=
  let bits := 8 * Z.of_nat width in
  let fits :=
    if signed then (- 2 ^ (bits - 1) <=? z) && (z <? 2 ^ (bits - 1))
    else (0 <=? z) && (z <? 2 ^ bits) in
  if fits then Return (little_endian width z) else Raise struct_error.

(** The length prefix of a vector or of a script. *)
Definition var_int (length : nat) : bitcoin.bytes :=
  let n := Z.of_nat length in
  if n <? 253 then little_endian 1 n
  else if n <=? 65535 then Byte.xfd :: little_endian 2 n
  else if n <=? 4294967295 then Byte.xfe :: little_endian 4 n
  else Byte.xff :: little_endian 8 n.

Definition after (first : Outcome bitcoin.bytes)
    (rest : Outcome bitcoin.bytes) : Outcome bitcoin.bytes :=
  match first, rest with
  | Return a, Return b => Return (a ++ b)
  | Raise e, _ => Raise e
  | _, Raise e => Raise e
  end.

Definition serialize_input (input : bitcoin.CTxIn) : Outcome bitcoin.bytes :=
  after (Return (bitcoin.hash (bitcoin.prevout input)))
    (after (pack false 4 (bitcoin.n (bitcoin.prevout input)))
       (after
          (Return (var_int (length (bitcoin.scriptSig input))
                   ++ bitcoin.scriptSig input))
          (pack false 4 (bitcoin.nSequence input)))).

Definition serialize_output (output : bitcoin.CTxOut) : Outcome bitcoin.bytes :=
  after (pack true 8 (bitcoin.nValue output))
    (Return (var_int (length (bitcoin.scriptPubKey output))
             ++ bitcoin.scriptPubKey output)).

Definition serialize_all {A} (one : A -> Outcome bitcoin.bytes) (items : list A)
  : Outcome bitcoin.bytes :=
  foldr (fun item rest => after (one item) rest)
    (Return []) items.

(** A stand-in for the serializer of [bitcoin.core] in the examples: version,
    inputs, outputs and lock time in the wire format, and [struct.error] for
    a number outside its packed width. *)
Definition serialize (tx : bitcoin.CTransaction) : Outcome bitcoin.bytes :=
  after (pack true 4 (bitcoin.nVersion tx))
    (after
       (after (Return (var_int (length (bitcoin.vin tx))))
          (serialize_all serialize_input (bitcoin.vin tx)))
       (after
          (after (Return (var_int (length (bitcoin.vout tx))))
             (serialize_all serialize_output (bitcoin.vout tx)))
          (pack false 4 (bitcoin.nLockTime tx)))).

(** [type(value).__name__] *)
Definition type_name (value : PyValue) : string :=
  match value with
  | VNone => "NoneType"
  | VBool _ => "bool"
  | VInt _ => "int"
  | VStr _ => "str"
  | VBytes _ => "bytes"
  | VList _ => "list"
  | VDict _ => "dict"
  | VTransaction _ => "CTransaction"
  | VInstance => "Controller"
  end.

(** The first object inside [value] that [json.dumps] cannot write, going
    through lists and objects in order. *)
Fixpoint culprit (value : PyValue) : option PyValue :=
  match value with
  | VNone | VBool _ | VInt _ | VStr _ => None
  | VBytes _ | VTransaction _ | VInstance => Some value
  | VList l =>
      (fix first (l : list PyValue) : option PyValue :=
         match l with
         | [] => None
         | v :: l' =>
             match culprit v with
             | Some found => Some found
             | None => first l'
             end
         end) l
  | VDict items =>
      (fix first (items : list (string * PyValue)) : option PyValue :=
         match items with
         | [] => None
         | (_, v) :: items' =>
             match culprit v with
             | Some found => Some found
             | None => first items'
             end
         end) items
  end.

(** A stand-in for the texts of the library's errors in the examples, as
    CPython 3.7 to 3.10 words them. *)
Definition message (error : LibraryError) : string :=
  match error with
  | not_serializable value =>
      "Object of type "
      +:+ match culprit value with
          | Some found => type_name found
          | None => type_name value
          end
      +:+ " is not JSON serializable"
  | conflicting_option option_string =>
      "argument " +:+ option_string +:+ ": conflicting option string: "
      +:+ option_string
  | not_callable value => "'" +:+ type_name value +:+ "' object is not callable"
  end.

Definition transaction : bitcoin.CTransaction :=
  {| bitcoin.vin :=
       [ {| bitcoin.prevout :=
              {| bitcoin.hash := replicate 31 Byte.x00 ++ [Byte.xab];
                 bitcoin.n := 1 |};
            bitcoin.scriptSig := [Byte.x51];
            bitcoin.nSequence := 4294967295 |} ];
     bitcoin.vout :=
       [ {| bitcoin.nValue := 600;
            bitcoin.scriptPubKey := [Byte.x76; Byte.xa9] |} ];
     bitcoin.nLockTime := 0;
     bitcoin.nVersion := 1 |}.

(** A transaction with an output value of 2^63, which does not fit the eight
    signed bytes it is packed in. *)
Definition unpackable : bitcoin.CTransaction :=
  {| bitcoin.vin := [];
     bitcoin.vout :=
       [ {| bitcoin.nValue := 9223372036854775808;
            bitcoin.scriptPubKey := [Byte.x76; Byte.xa9] |} ];
     bitcoin.nLockTime := 0;
     bitcoin.nVersion := 1 |}.

Definition self : Param :=
  {| name := "self"; kind := POSITIONAL_OR_KEYWORD;
     default := None; annotation := None |}.

(** [def echo(self, required_a, optional_b=5): return optional_b] *)
Definition echo : PyFunction :=
  {| __doc__ := Some "Returns its second argument.";
     parameters :=
       [ self;
         {| name := "required_a"; kind := POSITIONAL_OR_KEYWORD;
            default := None; annotation := None |};
         {| name := "optional_b"; kind := POSITIONAL_OR_KEYWORD;
            default := Some (VInt 5); annotation := None |} ];
     body := fun controller env =>
       match env !! "optional_b" with
       | Some value => Return value
       | None => Return VNone
       end |}.

(** [def show(self): return self.tx_parser(transaction)] *)
Definition show : PyFunction :=
  {| __doc__ := Some "Returns a transaction.";
     parameters := [self];
     body := fun controller env =>
       tx_parser controller (VTransaction transaction) |}.

(** [def leak(self): return transaction] *)
Definition leak : PyFunction :=
  {| __doc__ := Some "Returns a transaction as it is.";
     parameters := [self];
     body := fun controller env => Return (VTransaction transaction) |}.

(** [def fail(self): raise error] *)
Definition fail (error : Exn) : PyFunction :=
  {| __doc__ := None;
     parameters := [self];
     body := fun controller env => Raise error |}.


(** The [TypeError] of an expression such as [1 + 'a'] in a body. *)
Definition operand_error : Exn :=
  type_error "unsupported operand type(s) for +: 'int' and 'str'".

Definition controller_error : Exn :=
  {| class := ControllerError; __name__ := "ControllerError";
     str := "The asset could not be found." |}.

(** The body [name=value] as [parse_qs] decodes the bytes read: one field,
    name and value being [bytes] objects. *)
Definition field (name value : string)
  : gmap bitcoin.bytes (list bitcoin.bytes) :=
  {[ String.list_byte_of_string name := [String.list_byte_of_string value] ]}.

Definition configuration : Configuration :=
  {| rpc_enabled := true; rpc_port := 8080 |}.

(** A controller class with two public functions, a private one and a class
    attribute that is not a function, and the router built for it. *)
Definition controller : Controller :=
  {[ "echo" := attr_function echo;
     "show" := attr_function show;
     "_fail" := attr_function (fail controller_error);
     "version" :=
       attr_object (fun _ _ => Raise (type_error "'str' object is not callable")) ]}.

Definition grammar (function : PyFunction) : Router.Subparser :=
  match Router._create_subparser message
          (Router.new_parser (__doc__ function)) function with
  | Return subparser => subparser
  | Raise _ => Router.new_parser None
  end.

Definition router : Router.t :=
  {| Router.controller := controller;
     Router.configuration := configuration;
     Router.subparsers :=
       {[ "server" := Router.server_parser;
          "echo" := grammar echo;
          "show" := grammar show ]} |}.

End Samples.

(** * Facts *)

Import Py Eff.

(** ** The transaction formatter *)

Section FormatterFacts.

Variable serialize : bitcoin.CTransaction -> Outcome bitcoin.bytes.

Abbreviation formatter := (Router.get_transaction_formatter serialize).

Lemma b2x_length (b : bitcoin.bytes) :
  String.length (bitcoin.b2x b) = (2 * List.length b)%nat.
Proof. induction b as [|x b IH]; simpl; [done | rewrite IH; lia]. Qed.

Lemma formatter_json format :
  eq_str format "json" = true -> format = VStr "json".
Proof.
  destruct format; simpl; try discriminate.
  intros H. apply String.eqb_eq in H. by subst.
Qed.

Lemma formatter_not_json format :
  format <> VStr "json" -> eq_str format "json" = false.
Proof.
  intros H. destruct (eq_str format "json") eqn:E; [|done].
  by apply formatter_json in E.
Qed.

(** C7, as the formatter has it: the formatter selected by "json" renders a
    transaction as an object with the version, the lock time, one entry per
    input (the previous output's hash as [txid], its index as [vout], the
    sequence number and the hex of the signature script) and one entry per
    output (its value, its index and the hex of its script); the formatter
    selected by "raw" renders it as the hex text of its serialized bytes when
    the library serializes it, and raises the library's exception when it
    does not. *)
Theorem formatter_renders_transaction (tx : bitcoin.CTransaction) :
  (exists inputs outputs,
      formatter (VStr "json") (VTransaction tx) =
        Return
          (VDict [ ("version", VInt (bitcoin.nVersion tx));
                   ("locktime", VInt (bitcoin.nLockTime tx));
                   ("vin", VList inputs);
                   ("vout", VList outputs) ])
      /\ List.length inputs = List.length (bitcoin.vin tx)
      /\ (forall (i : nat) (input : bitcoin.CTxIn),
            bitcoin.vin tx !! i = Some input ->
            inputs !! i =
              Some (VDict
                      [ ("txid", VStr (bitcoin.b2lx (bitcoin.hash (bitcoin.prevout input))));
                        ("vout", VInt (bitcoin.n (bitcoin.prevout input)));
                        ("sequence", VInt (bitcoin.nSequence input));
                        ("scriptSig",
                         VDict [("hex", VStr (bitcoin.b2x (bitcoin.scriptSig input)))]) ]))
      /\ List.length outputs = List.length (bitcoin.vout tx)
      /\ (forall (i : nat) (output : bitcoin.CTxOut),
            bitcoin.vout tx !! i = Some output ->
            outputs !! i =
              Some (VDict
                      [ ("value", VInt (bitcoin.nValue output));
                        ("n", VInt (Z.of_nat i));
                        ("scriptPubKey",
                         VDict [("hex", VStr (bitcoin.b2x (bitcoin.scriptPubKey output)))]) ])))
  /\ formatter (VStr "raw") (VTransaction tx)
     = match serialize tx with
       | Return serialized => Return (VStr (bitcoin.b2x serialized))
       | Raise e => Raise e
       end.
Proof.
  split; [|reflexivity].
  exists (Router.input_json <$> bitcoin.vin tx),
         (imap Router.output_json (bitcoin.vout tx)).
  split; [reflexivity|].
  split; [by rewrite length_fmap|].
  split; [intros i input Hi; by rewrite list_lookup_fmap, Hi|].
  split; [by rewrite length_imap|].
  intros i output Hi. by rewrite list_lookup_imap, Hi.
Qed.

(** C8: a value that is not a transaction is returned unchanged by the
    formatter of every format, and every format other than "json" selects a
    formatter that agrees with the one of "raw" on every value. *)
Theorem formatter_passes_and_falls_back (format : PyValue) (value : PyValue) :
  (is_transaction value = false -> formatter format value = Return value)
  /\ (format <> VStr "json" -> formatter format value = formatter (VStr "raw") value).
Proof.
  split.
  - intros Hv. unfold Router.get_transaction_formatter.
    destruct (eq_str format "json"); by destruct value.
  - intros Hf. unfold Router.get_transaction_formatter.
    by rewrite (formatter_not_json _ Hf).
Qed.

Lemma imap_serializable {A} (f : nat -> A -> PyValue) (l : list A) :
  (forall i x, json_serializable (f i x) = true) ->
  forallb json_serializable (imap f l) = true.
Proof.
  revert f. induction l as [|x l IH]; intros f Hf; [done|].
  rewrite imap_cons. cbn [forallb]. rewrite Hf. apply IH. intros i y. apply Hf.
Qed.

Lemma fmap_serializable {A} (f : A -> PyValue) (l : list A) :
  (forall x, json_serializable (f x) = true) ->
  forallb json_serializable (f <$> l) = true.
Proof.
  intros Hf. induction l as [|x l IH]; [done|].
  rewrite fmap_cons. cbn [forallb]. by rewrite Hf, IH.
Qed.

Lemma formatter_serializable (format : PyValue) (value result : PyValue) :
  formatter format value = Return result ->
  is_transaction value = true \/ json_serializable value = true ->
  json_serializable result = true.
Proof.
  unfold Router.get_transaction_formatter. intros Hresult Hvalue.
  destruct (eq_str format "json").
  - destruct value; try (injection Hresult as <-; by destruct Hvalue).
    injection Hresult as <-. cbn [json_serializable forallb].
    change (forallb json_serializable (Router.input_json <$> bitcoin.vin tx)
            && (forallb json_serializable (imap Router.output_json (bitcoin.vout tx))
                && true) = true).
    rewrite fmap_serializable by done. by rewrite imap_serializable.
  - destruct value; try (injection Hresult as <-; by destruct Hvalue).
    destruct (serialize tx); [|done]. by injection Hresult as <-.
Qed.

(** X1: the formatter never returns a transaction, so formatting what a
    formatter returned, under whatever format, changes nothing. *)
Theorem formatter_returns_no_transaction (format format' : PyValue)
    (value result : PyValue) :
  formatter format value = Return result ->
  is_transaction result = false
  /\ formatter format' result = Return result.
Proof.
  intros Hresult.
  assert (is_transaction result = false) as Hno.
  { revert Hresult. unfold Router.get_transaction_formatter.
    destruct (eq_str format "json"); destruct value;
      try (by intros [= <-]).
    destruct (serialize tx); [|done]. by intros [= <-]. }
  split; [exact Hno|]. unfold Router.get_transaction_formatter.
  destruct (eq_str format' "json"); by destruct result.
Qed.

(** X2: what the formatter returns can be written as JSON exactly when the
    value is a transaction or can be written as JSON itself; the formatter of
    "json" returns for every value, that of another format for every value
    but a transaction the library does not serialize. *)
Theorem formatter_result_serializable (format : PyValue) (value : PyValue) :
  (forall result,
      formatter format value = Return result ->
      (json_serializable result = true
       <-> is_transaction value = true \/ json_serializable value = true))
  /\ (exists result, formatter (VStr "json") value = Return result)
  /\ (forall e,
        formatter format value = Raise e ->
        format <> VStr "json"
        /\ exists tx, value = VTransaction tx /\ serialize tx = Raise e).
Proof.
  split_and!.
  - intros result Hresult. split; [|by apply (formatter_serializable format)].
    intros Hjson. destruct (is_transaction value) eqn:Htx; [by left|]. right.
    revert Hresult Hjson. unfold Router.get_transaction_formatter.
    destruct (eq_str format "json"); destruct value; try done;
      by intros [= <-].
  - unfold Router.get_transaction_formatter. simpl.
    destruct value; by eexists.
  - intros e. unfold Router.get_transaction_formatter.
    destruct (eq_str format "json") eqn:Hformat.
    + by destruct value.
    + destruct value; try done. destruct (serialize tx) eqn:Hserialize; [done|].
      intros [= <-]. split; [|by eexists].
      intros ->. discriminate Hformat.
Qed.

End FormatterFacts.

(** ** The path pattern *)

Lemma append_cons (c : ascii) (s t : string) :
  String c s +:+ t = String c (s +:+ t).
Proof. reflexivity. Qed.

Lemma append_empty_r (s : string) : s +:+ "" = s.
Proof. induction s as [|c s IH]; [done|]. by rewrite append_cons, IH. Qed.

Lemma span_word_append (s : string) :
  s = (RpcServer.span_word s).1 +:+ (RpcServer.span_word s).2.
Proof.
  induction s as [|c s IH]; simpl; [done|].
  destruct (RpcServer.is_word c); [|done].
  destruct (RpcServer.span_word s) as [run rest]; simpl in *.
  rewrite append_cons. congruence.
Qed.

Lemma span_word_run (s : string) :
  RpcServer.all_word (RpcServer.span_word s).1 = true.
Proof.
  induction s as [|c s IH]; simpl; [done|].
  destruct (RpcServer.is_word c) eqn:Hc; [|done].
  destruct (RpcServer.span_word s) as [run rest]; simpl in *. by rewrite Hc.
Qed.

(** A run of word characters followed by something that does not start with
    one is split exactly there. *)
Lemma span_word_exact (name rest : string) :
  RpcServer.all_word name = true ->
  match rest with
  | String c _ => RpcServer.is_word c = false
  | EmptyString => True
  end ->
  RpcServer.span_word (name +:+ rest) = (name, rest).
Proof.
  intros Hname Hrest. induction name as [|c name IH].
  - change ("" +:+ rest) with rest.
    destruct rest as [|c rest]; [done|]. simpl. by rewrite Hrest.
  - simpl in Hname. apply andb_prop in Hname as [Hc Hname].
    rewrite append_cons. simpl. by rewrite Hc, (IH Hname).
Qed.

Lemma no_line_feed_append (s t : string) :
  RpcServer.no_line_feed (s +:+ t) =
    RpcServer.no_line_feed s && RpcServer.no_line_feed t.
Proof.
  induction s as [|c s IH]; [done|].
  rewrite append_cons. simpl. by rewrite IH, andb_assoc.
Qed.

(** What the pattern accepts: a slash, a non-empty run of word characters,
    and then the end of the text or one line feed that ends it.  The group is
    the run. *)
Lemma search_operation_spec (path name : string) :
  RpcServer.search_operation path = Some name <->
  name <> "" /\ RpcServer.all_word name = true
  /\ (path = "/" +:+ name \/ path = "/" +:+ name +:+ LF).
Proof.
  split.
  - unfold RpcServer.search_operation.
    destruct path as [|c after]; [done|].
    destruct (Ascii.eqb_spec c "/") as [->|Hc]; cycle 1.
    { intros H. exfalso. revert H.
      destruct c as [[] [] [] [] [] [] [] []]; done. }
    pose proof (span_word_append after) as Happ.
    pose proof (span_word_run after) as Hrun.
    destruct (RpcServer.span_word after) as [run rest]; simpl in Happ, Hrun.
    destruct (String.eqb_spec run "") as [|Hne]; [done|].
    destruct (String.eqb_spec rest "") as [->|_]; simpl.
    { intros [= <-]. split_and!; [done..|]. left.
      rewrite append_empty_r in Happ. by subst after. }
    destruct (String.eqb_spec rest LF) as [->|_]; [|done].
    intros [= <-]. split_and!; [done..|]. right. by subst after.
  - intros (Hne & Hword & [-> | ->]); unfold RpcServer.search_operation.
    + change ("/" +:+ name) with (String "/" name).
      rewrite <- (append_empty_r name) at 1.
      rewrite (span_word_exact name "" Hword I).
      destruct (String.eqb_spec name ""); done.
    + change ("/" +:+ name +:+ LF) with (String "/" (name +:+ LF)). simpl.
      rewrite (span_word_exact name LF Hword eq_refl).
      destruct (String.eqb_spec name ""); done.
Qed.

(** The pattern's [$] also matches before a line feed that ends the text. *)
Remark search_operation_final_line_feed :
  RpcServer.search_operation ("/issue" +:+ LF) = Some "issue".
Proof. reflexivity. Qed.

(** The first character of a captured name. *)
Lemma search_operation_first (path name : string) :
  RpcServer.search_operation path = Some name ->
  String.eqb name "" = false
  /\ exists first, getitem0 name = Return first /\ RpcServer.is_word first = true.
Proof.
  intros (Hne & Hword & _)%search_operation_spec. split.
  - by apply String.eqb_neq.
  - destruct name as [|c name]; [done|]. exists c. split; [done|].
    simpl in Hword. by apply andb_prop in Hword as [? _].
Qed.

(** C10: when the path check succeeds the captured name is a non-empty text
    of word characters, so the comparison of the name with the empty text is
    false and taking its first character does not fail. *)
Theorem captured_name_is_nonempty_word (path name : string) :
  RpcServer.search_operation path = Some name ->
  name <> ""
  /\ RpcServer.all_word name = true
  /\ String.eqb name "" = false
  /\ exists first, getitem0 name = Return first.
Proof.
  intros Hpath.
  destruct (search_operation_first _ _ Hpath) as (Hempty & first & Hfirst & _).
  apply search_operation_spec in Hpath as (Hne & Hword & _).
  split_and!; [done..|]. by exists first.
Qed.

Lemma captured_name_is_nonempty_word_witness :
  "issue" <> ""
  /\ RpcServer.all_word "issue" = true
  /\ String.eqb "issue" "" = false
  /\ exists first, getitem0 "issue" = Return first.
Proof. apply (captured_name_is_nonempty_word "/issue" "issue"). reflexivity. Defined.

(** ** The path pattern and the line feed *)

Lemma all_word_no_line_feed (name : string) :
  RpcServer.all_word name = true -> RpcServer.no_line_feed name = true.
Proof.
  induction name as [|c name IH]; simpl; [done|].
  intros [Hc Hname]%andb_prop. rewrite (IH Hname), andb_true_r.
  destruct (Ascii.eqb_spec c "010"); [by subst|done].
Qed.

Lemma append_line_feed_inj (s t : string) : s +:+ LF = t +:+ LF -> s = t.
Proof.
  revert t. induction s as [|c s IH]; intros [|d t]; rewrite ?append_cons.
  - done.
  - change ("" +:+ LF) with LF. intros [= _ Ht]. by destruct t.
  - change ("" +:+ LF) with LF. intros [= _ Hs]. by destruct s.
  - intros [= -> Heq]. f_equal. by apply IH.
Qed.

(** X16: one line feed at the end of a path is ignored by the pattern: the
    path with it is accepted exactly when the path without it is, with the
    same name.  (The [$] of the pattern matches before a final line feed.) *)
Theorem search_operation_line_feed (path : string) :
  RpcServer.no_line_feed path = true ->
  RpcServer.search_operation (path +:+ LF) = RpcServer.search_operation path.
Proof.
  intros Hline.
  destruct (RpcServer.search_operation path) as [name|] eqn:Hpath.
  - apply search_operation_spec in Hpath as (Hne & Hword & [-> | ->]).
    + apply search_operation_spec. split_and!; [done..|]. by right.
    + rewrite !no_line_feed_append in Hline. by rewrite !andb_false_r in Hline.
  - destruct (RpcServer.search_operation (path +:+ LF)) as [name|] eqn:Hfed; [|done].
    apply search_operation_spec in Hfed as (Hne & Hword & [Heq | Heq]).
    + assert (RpcServer.no_line_feed (path +:+ LF) = true) as Hfed.
      { rewrite Heq. change ("/" +:+ name) with (String "/" name). simpl.
        by apply all_word_no_line_feed. }
      rewrite no_line_feed_append in Hfed. by rewrite andb_false_r in Hfed.
    + change ("/" +:+ name +:+ LF) with (("/" +:+ name) +:+ LF) in Heq.
      apply append_line_feed_inj in Heq.
      assert (RpcServer.search_operation path = Some name) as Hsome
        by (apply search_operation_spec; auto).
      congruence.
Qed.


(** ** The RPC handler *)

Lemma is_private_first (name : string) (first : ascii) :
  getitem0 name = Return first ->
  Ascii.eqb first "_" = is_private name.
Proof.
  destruct name as [|c name]; [done|]. intros [= ->]. simpl.
  destruct (Ascii.eqb_spec first "_") as [->|Hc]; [done|].
  destruct first as [[] [] [] [] [] [] [] []]; done.
Qed.

Lemma fill_defaults_raises (ps : list Param) (env : gmap string PyValue) (e : Exn) :
  fill_defaults ps env = Raise e -> class e = TypeError.
Proof.
  revert env. induction ps as [|p ps IH]; intros env; simpl; [done|].
  destruct (takes_positional p || takes_keyword p); [|by apply IH].
  destruct (env !! Py.name p); [by apply IH|].
  destruct (default p); [by apply IH|]. by intros [= <-].
Qed.

(** Arguments that do not fit the signature are a [TypeError], whichever way
    they fail to fit. *)
Lemma bind_arguments_raises (ps : list Param) (args : list PyValue)
    (kwargs : gmap string PyValue) (e : Exn) :
  bind_arguments ps args kwargs = Raise e -> class e = TypeError.
Proof.
  unfold bind_arguments.
  repeat (match goal with |- context [if ?b then _ else _] => destruct b end;
          [by intros [= <-]|]).
  destruct (fill_defaults _ _) eqn:Hfill; [done|].
  intros [= <-]. by apply fill_defaults_raises in Hfill.
Qed.

Lemma call_bind_raises (function : PyFunction) (controller : Instance)
    (args : list PyValue) (kwargs : gmap string PyValue) (e : Exn) :
  bind_arguments (parameters function) (VInstance :: args) kwargs = Raise e ->
  call function controller args kwargs = Raise e.
Proof. unfold call. by intros ->. Qed.


(** *** The fields of a body as keywords *)

Lemma keywords_empty : keywords ∅ = Return ∅.
Proof. unfold keywords. by rewrite map_to_list_empty. Qed.

(** No key of a body read as [bytes] is a [str]: looking one up finds
    nothing, removing one changes nothing, and the body cannot be passed as
    keywords unless it is empty. *)
Lemma fields_lookup_str {A} (fields : gmap bitcoin.bytes A) (key : string) :
  (kmap KBytes fields : gmap Key A) !! KStr key = None.
Proof. apply (lookup_kmap_None KBytes). intros name Hkey. discriminate Hkey. Qed.

Lemma fields_delete_str {A} (fields : gmap bitcoin.bytes A) (key : string) :
  delete (KStr key) (kmap KBytes fields : gmap Key A) = kmap KBytes fields.
Proof. apply delete_id, fields_lookup_str. Qed.

Lemma keywords_bytes (fields : gmap bitcoin.bytes PyValue) :
  fields <> ∅ ->
  keywords (kmap KBytes fields) = Raise (type_error "keywords must be strings").
Proof.
  intros Hne. unfold keywords.
  destruct (map_to_list (kmap KBytes fields : gmap Key PyValue))
    as [|[key value] items] eqn:Hitems.
  { apply map_to_list_empty_iff, kmap_empty_iff in Hitems; [done|apply _]. }
  assert ((kmap KBytes fields : gmap Key PyValue) !! key = Some value) as Hkey.
  { apply elem_of_map_to_list. rewrite Hitems. apply elem_of_cons. by left. }
  apply lookup_kmap_Some in Hkey as (name & -> & _); [|apply _].
  reflexivity.
Qed.

Section HandlerFacts.

Variable serialize : bitcoin.CTransaction -> Outcome bitcoin.bytes.

Variable message : LibraryError -> string.

(** The formatter the handler builds when the lookup of [txformat] finds
    nothing. *)
Abbreviation json_formatter :=
  (Router.get_transaction_formatter serialize (VStr "json")).

(** The body of an error response of [RpcServer.error]. *)
Abbreviation error_body code text :=
  (VDict [("error", VDict [("code", VInt code); ("message", VStr text)])]).

Abbreviation internal_error exception :=
  (VDict
     [("error",
       VDict [("code", VInt 0);
              ("message", VStr "Internal server error");
              ("details", VStr (str exception))])]).

Abbreviation handle_request := (RpcServer.handle_request serialize message).

(** The steps from the call on: the answer to a result, or to the exception
    the call raised. *)
Abbreviation answer outcome :=
  match outcome with
  | Return result =>
      (send_headers 200
         :: (if json_serializable result then [ response_write_json result ]
             else [ send_headers 500;
                    response_write_json
                      (internal_error
                         (type_error (message (not_serializable result)))) ]),
       Return tt)
  | Raise e =>
      (match class e with
       | TypeError =>
           [ send_headers 400;
             response_write_json (error_body 104 "Invalid parameters provided") ]
       | ControllerError =>
           [ send_headers 400; response_write_json (error_body 201 (str e)) ]
       | TransactionBuilderError =>
           [ send_headers 400; response_write_json (error_body 301 (__name__ e)) ]
       | OtherException =>
           [ send_headers 500; response_write_json (internal_error e) ]
       | BaseExceptionOnly => []
       end,
       match class e with BaseExceptionOnly => Raise e | _ => Return tt end)
  end.

(** An event of one kind is not in a trace written out without it. *)
Ltac no_such_event Hin :=
  repeat (apply elem_of_cons in Hin as [Hin|Hin]; [discriminate|]);
  by apply elem_of_nil in Hin.

(** A request whose path names an attribute of the controller that is not
    private gets as far as reading the body. *)
Ltac resolve Hpath Hprivate Hop :=
  let Hne := fresh in
  let first := fresh in
  let Hfirst := fresh in
  pose proof (search_operation_first _ _ Hpath)
    as (Hne & first & Hfirst & _);
  unfold RpcServer.handle_request;
  rewrite Hpath, Hne, Hfirst, Hop; cbn -[RpcServer.error RpcServer.invoke delete kmap];
  rewrite (is_private_first _ _ Hfirst), Hprivate;
  cbn -[RpcServer.error RpcServer.invoke delete kmap].

Lemma handle_request_no_match (controller : Controller) (path : string)
    (payload : Outcome (gmap bitcoin.bytes (list bitcoin.bytes))) :
  RpcServer.search_operation path = None ->
  handle_request controller path payload
  = ([ send_headers 400;
       response_write_json (error_body 102 "The request path is invalid") ],
     Return tt).
Proof. intros Hpath. unfold RpcServer.handle_request. by rewrite Hpath. Qed.

Lemma handle_request_no_operation (controller : Controller) (path name : string)
    (payload : Outcome (gmap bitcoin.bytes (list bitcoin.bytes))) :
  RpcServer.search_operation path = Some name ->
  is_private name = true \/ getattr controller name = None ->
  handle_request controller path payload
  = ([ send_headers 400;
       response_write_json
         (error_body 103 ("The operation name " +:+ name +:+ " is invalid")) ],
     Return tt).
Proof.
  intros Hpath Hinvalid.
  pose proof (search_operation_first _ _ Hpath) as (Hempty & first & Hfirst & _).
  unfold RpcServer.handle_request.
  rewrite Hpath, Hempty, Hfirst. cbn -[RpcServer.error].
  rewrite (is_private_first _ _ Hfirst).
  destruct Hinvalid as [-> | ->]; [done|].
  by destruct (is_private name).
Qed.

(** The body cannot be read or decoded: an [Exception] is answered with
    status 500 and its text, and neither a controller is built nor an
    attribute called. *)
Lemma handle_request_unreadable (controller : Controller) (path name : string)
    (operation : Attribute) (e : Exn) :
  RpcServer.search_operation path = Some name ->
  is_private name = false ->
  getattr controller name = Some operation ->
  handle_request controller path (Raise e)
  = match class e with
    | BaseExceptionOnly => ([], Raise e)
    | _ => ([ send_headers 500; response_write_json (internal_error e) ], Return tt)
    end.
Proof.
  intros Hpath Hprivate Hop. resolve Hpath Hprivate Hop.
  by destruct e as [[] type_name text].
Qed.

(** A body with a field cannot be passed as keywords. *)
Lemma handle_request_fields (controller : Controller) (path name : string)
    (operation : Attribute) (decoded : gmap bitcoin.bytes (list bitcoin.bytes)) :
  RpcServer.search_operation path = Some name ->
  is_private name = false ->
  getattr controller name = Some operation ->
  decoded <> ∅ ->
  handle_request controller path (Return decoded)
  = ([ new_controller json_formatter;
       send_headers 400;
       response_write_json (error_body 104 "Invalid parameters provided") ],
     Return tt).
Proof.
  intros Hpath Hprivate Hop Hne. resolve Hpath Hprivate Hop.
  rewrite fields_lookup_str, fields_delete_str.
  unfold RpcServer.invoke. rewrite keywords_bytes; [done|].
  by intros ?%fmap_empty_iff.
Qed.

(** An empty body: a function of the class is called with no keywords. *)
Lemma handle_request_function (controller : Controller) (path name : string)
    (function : PyFunction) :
  RpcServer.search_operation path = Some name ->
  is_private name = false ->
  getattr controller name = Some (attr_function function) ->
  handle_request controller path (Return ∅)
  = let '(trace, outcome) :=
      answer (call function {| tx_parser := json_formatter |} [] ∅) in
    (new_controller json_formatter :: call_operation function ∅ :: trace, outcome).
Proof.
  intros Hpath Hprivate Hop. resolve Hpath Hprivate Hop.
  rewrite fmap_empty, kmap_empty, lookup_empty, delete_empty.
  unfold RpcServer.invoke. rewrite keywords_empty. cbn.
  destruct (call function _ [] ∅) as [result|e]; cbn.
  - unfold RpcServer.json_response, json_dumps.
    by destruct (json_serializable result).
  - by destruct e as [[] type_name text].
Qed.

(** An empty body: another attribute of the class is called the same way. *)
Lemma handle_request_object (controller : Controller) (path name : string)
    (object : Instance -> gmap string PyValue -> Outcome PyValue) :
  RpcServer.search_operation path = Some name ->
  is_private name = false ->
  getattr controller name = Some (attr_object object) ->
  handle_request controller path (Return ∅)
  = let '(trace, outcome) :=
      answer (object {| tx_parser := json_formatter |} ∅) in
    (new_controller json_formatter :: call_attribute name ∅ :: trace, outcome).
Proof.
  intros Hpath Hprivate Hop. resolve Hpath Hprivate Hop.
  rewrite fmap_empty, kmap_empty, lookup_empty, delete_empty.
  unfold RpcServer.invoke. rewrite keywords_empty. cbn.
  destruct (object _ ∅) as [result|e]; cbn.
  - unfold RpcServer.json_response, json_dumps.
    by destruct (json_serializable result).
  - by destruct e as [[] type_name text].
Qed.

Lemma getattr_not_none (controller : Controller) (name : string) :
  getattr controller name <> Some attr_none.
Proof.
  unfold getattr. destruct (controller !! name) as [[]|]; try done.
  by destruct (String.eqb name "mro").
Qed.

(** The call the handler makes for an attribute of the class. *)
Abbreviation call_event name attribute :=
  match attribute with
  | attr_function function => call_operation function ∅
  | _ => call_attribute name ∅
  end.

(** Every run of the handler has one of six shapes. *)
Lemma handle_request_shape (controller : Controller) (path : string)
    (payload : Outcome (gmap bitcoin.bytes (list bitcoin.bytes))) :
  (exists code text,
      handle_request controller path payload
      = ([ send_headers 400; response_write_json (error_body code text) ],
         Return tt))
  \/ (exists name operation,
        RpcServer.search_operation path = Some name
        /\ is_private name = false
        /\ getattr controller name = Some operation
        /\ ((exists e,
               payload = Raise e
               /\ (class e = BaseExceptionOnly
                   /\ handle_request controller path payload = ([], Raise e)
                   \/ handle_request controller path payload
                      = ([ send_headers 500; response_write_json (internal_error e) ],
                         Return tt)))
            \/ (exists decoded,
                  payload = Return decoded
                  /\ decoded <> ∅
                  /\ handle_request controller path payload
                     = ([ new_controller json_formatter;
                          send_headers 400;
                          response_write_json
                            (error_body 104 "Invalid parameters provided") ],
                        Return tt))
            \/ (payload = Return ∅
                /\ ((exists e,
                       class e = BaseExceptionOnly
                       /\ handle_request controller path payload
                          = ([ new_controller json_formatter;
                               call_event name operation ],
                             Raise e))
                    \/ (exists status data,
                          handle_request controller path payload
                          = ([ new_controller json_formatter;
                               call_event name operation;
                               send_headers status;
                               response_write_json data ],
                             Return tt))
                    \/ (exists data,
                          handle_request controller path payload
                          = ([ new_controller json_formatter;
                               call_event name operation;
                               send_headers 200;
                               send_headers 500;
                               response_write_json data ],
                             Return tt)))))).
Proof.
  destruct (RpcServer.search_operation path) as [name|] eqn:Hpath; cycle 1.
  { left. rewrite handle_request_no_match by done. by do 2 eexists. }
  destruct (is_private name) eqn:Hprivate.
  { left. rewrite (handle_request_no_operation _ _ name) by auto. by do 2 eexists. }
  destruct (getattr controller name) as [operation|] eqn:Hop; cycle 1.
  { left. rewrite (handle_request_no_operation _ _ name) by auto. by do 2 eexists. }
  right. exists name, operation. split_and!; [done..|].
  destruct payload as [decoded|e].
  - destruct (decide (decoded = ∅)) as [->|Hfields].
    + right. right. split; [done|].
      destruct operation as [function| |object].
      * rewrite (handle_request_function _ _ name function) by done.
        destruct (call function _ [] ∅) as [result|e].
        -- destruct (json_serializable result);
             [right; left | right; right]; by repeat eexists.
        -- destruct e as [[] type_name text]; cbn;
             first [ left; eexists; split; [|reflexivity]; reflexivity
                   | right; left; by repeat eexists ].
      * by destruct (getattr_not_none controller name).
      * rewrite (handle_request_object _ _ name object) by done.
        destruct (object _ ∅) as [result|e].
        -- destruct (json_serializable result);
             [right; left | right; right]; by repeat eexists.
        -- destruct e as [[] type_name text]; cbn;
             first [ left; eexists; split; [|reflexivity]; reflexivity
                   | right; left; by repeat eexists ].
    + right. left. exists decoded. split_and!; [done..|].
      by apply (handle_request_fields _ _ name operation).
  - left. exists e. split; [done|].
    rewrite (handle_request_unreadable _ _ name operation) by done.
    destruct e as [[] type_name text]; cbn; auto.
Qed.

(** X19: for a path without a line feed, as a request line carries it, a
    path that is not a slash followed by one or more word
    characters and nothing else is answered with code 102 and status 400; a
    path of that form whose name is private, or under which [getattr] finds
    nothing, is answered with code 103 and status 400.  Neither builds a
    controller nor calls anything. *)
Theorem handle_request_rejects (controller : Controller) (path : string)
    (payload : Outcome (gmap bitcoin.bytes (list bitcoin.bytes))) :
  RpcServer.no_line_feed path = true ->
  ((forall name, name <> "" -> RpcServer.all_word name = true ->
      path <> "/" +:+ name) ->
   handle_request controller path payload
   = ([ send_headers 400;
        response_write_json (error_body 102 "The request path is invalid") ],
      Return tt))
  /\ (forall name, name <> "" -> RpcServer.all_word name = true ->
        path = "/" +:+ name ->
        is_private name = true \/ getattr controller name = None ->
        handle_request controller path payload
        = ([ send_headers 400;
             response_write_json
               (error_body 103 ("The operation name " +:+ name +:+ " is invalid")) ],
           Return tt)).
Proof.
  intros Hline. split.
  - intros Hform.
    destruct (RpcServer.search_operation path) as [name|] eqn:Hpath.
    + apply search_operation_spec in Hpath as (Hne & Hword & [-> | ->]).
      * by destruct (Hform name).
      * rewrite !no_line_feed_append in Hline.
        by rewrite !andb_false_r in Hline.
    + by apply handle_request_no_match.
  - intros name Hne Hword -> Hinvalid.
    apply (handle_request_no_operation _ _ name); [|done].
    apply search_operation_spec. auto.
Qed.

(** X18: when a function of the class is called and raises, a [TypeError], which is what every mismatch between the arguments
    and the parameters raises, gives code 104 with status 400; a controller
    error gives code 201 with its message and status 400; a
    transaction-builder error gives code 301 with the name of its class and
    status 400; any other exception that is an [Exception] gives code 0,
    'Internal server error', its text as details and status 500. *)
Theorem handle_request_failure (controller : Controller) (path name : string)
    (operation : PyFunction) (e : Exn) :
  RpcServer.search_operation path = Some name ->
  is_private name = false ->
  getattr controller name = Some (attr_function operation) ->
  call operation {| tx_parser := json_formatter |} [] ∅ = Raise e ->
  (forall e', bind_arguments (parameters operation) [VInstance] ∅ = Raise e' ->
              e' = e /\ class e = TypeError)
  /\ (class e <> BaseExceptionOnly ->
      handle_request controller path (Return ∅)
      = ([ new_controller json_formatter; call_operation operation ∅ ]
         ++ match class e with
            | TypeError =>
                [ send_headers 400;
                  response_write_json
                    (error_body 104 "Invalid parameters provided") ]
            | ControllerError =>
                [ send_headers 400;
                  response_write_json (error_body 201 (str e)) ]
            | TransactionBuilderError =>
                [ send_headers 400;
                  response_write_json (error_body 301 (__name__ e)) ]
            | _ =>
                [ send_headers 500; response_write_json (internal_error e) ]
            end,
         Return tt)).
Proof.
  intros Hpath Hprivate Hop Hcall. split.
  - intros e' Hbind. pose proof (bind_arguments_raises _ _ _ _ Hbind) as Hclass.
    apply (call_bind_raises _ {| tx_parser := json_formatter |}) in Hbind.
    rewrite Hcall in Hbind. by injection Hbind as ->.
  - intros Hbase. rewrite (handle_request_function _ _ name operation) by done.
    rewrite Hcall. by destruct e as [[] type_name text].
Qed.

(** X3: when the function called returns, the answer depends on whether the
    result can be written as JSON: if it can, status 200 with the result as
    body; if it cannot (a transaction the operation did not pass through the
    formatter, say), the failure comes after the headers of the 200 response
    have gone out, and the handler sends the headers of a 500 response and the
    internal-error body, with the text of the library's error as details,
    after them. *)
Theorem handle_request_result (controller : Controller) (path name : string)
    (operation : PyFunction) (result : PyValue) :
  RpcServer.search_operation path = Some name ->
  is_private name = false ->
  getattr controller name = Some (attr_function operation) ->
  call operation {| tx_parser := json_formatter |} [] ∅ = Return result ->
  handle_request controller path (Return ∅)
  = ([ new_controller json_formatter;
       call_operation operation ∅;
       send_headers 200 ]
     ++ (if json_serializable result then [ response_write_json result ]
         else [ send_headers 500;
                response_write_json
                  (internal_error
                     (type_error (message (not_serializable result)))) ]),
     Return tt).
Proof.
  intros Hpath Hprivate Hop Hcall.
  rewrite (handle_request_function _ _ name operation) by done.
  rewrite Hcall. by destruct (json_serializable result).
Qed.

(** X4: when reading or decoding the body raises an [Exception], a request
    for an attribute of the controller class is answered with status 500 and
    the text of the exception as details; no controller is built and nothing
    is called. *)
Theorem handle_request_body_failure (controller : Controller) (path name : string)
    (operation : Attribute) (e : Exn) :
  RpcServer.search_operation path = Some name ->
  is_private name = false ->
  getattr controller name = Some operation ->
  class e <> BaseExceptionOnly ->
  handle_request controller path (Raise e)
  = ([ send_headers 500; response_write_json (internal_error e) ], Return tt).
Proof.
  intros Hpath Hprivate Hop Hclass.
  rewrite (handle_request_unreadable _ _ name operation) by done.
  by destruct e as [[] type_name text].
Qed.

(** X5: every request is answered with exactly one body, and it is the last
    thing the handler does; the one exception is a failure that is not an
    [Exception], which leaves the handler with nothing sent. *)
Theorem handle_request_answers_once (controller : Controller) (path : string)
    (payload : Outcome (gmap bitcoin.bytes (list bitcoin.bytes))) :
  (exists before data,
      handle_request controller path payload
      = (before ++ [response_write_json data], Return tt)
      /\ forall other, response_write_json other ∉ before)
  \/ (exists e,
        (handle_request controller path payload).2 = Raise e
        /\ class e = BaseExceptionOnly
        /\ forall event,
             event ∈ (handle_request controller path payload).1 ->
             (forall status, event <> send_headers status)
             /\ (forall data, event <> response_write_json data)).
Proof.
  destruct (handle_request_shape controller path payload)
    as [(code & text & ->)
       |(name & operation & _ & _ & _ &
         [(e & _ & [[Hclass ->] | ->])
         |[(decoded & _ & _ & ->)
          |(_ & [(e & Hclass & ->) | [(status & data & ->) | (data & ->)]])]])].
  - left. exists [send_headers 400]. eexists. split; [done|].
    intros other Hin. no_such_event Hin.
  - right. exists e. split_and!; [done..|]. intros event Hin. by apply elem_of_nil in Hin.
  - left. exists [send_headers 500]. eexists. split; [done|].
    intros other Hin. no_such_event Hin.
  - left. eexists [_; _]. eexists. split; [done|].
    intros other Hin. no_such_event Hin.
  - right. exists e. split_and!; [done..|]. intros event Hin. cbn in Hin.
    split; intros ? ->; destruct operation; no_such_event Hin.
  - left. eexists [_; _; _]. eexists. split; [done|].
    intros other Hin. destruct operation; no_such_event Hin.
  - left. eexists [_; _; _; _]. eexists. split; [done|].
    intros other Hin. destruct operation; no_such_event Hin.
Qed.

(** X6: the handler makes at most one call per request, only when the body
    is empty, and what it calls is the attribute [getattr] finds under the
    name in the path, a name that does not start with an underscore: a
    function of the class, or another attribute such as [type.mro]. *)
Theorem handle_request_calls_public (controller : Controller) (path : string)
    (payload : Outcome (gmap bitcoin.bytes (list bitcoin.bytes)))
    (event : Event) (i : nat) :
  (handle_request controller path payload).1 !! i = Some event ->
  is_call event = true ->
  (exists name operation,
      RpcServer.search_operation path = Some name
      /\ is_private name = false
      /\ getattr controller name = Some operation
      /\ payload = Return ∅
      /\ event = call_event name operation)
  /\ forall j event',
       (handle_request controller path payload).1 !! j = Some event' ->
       is_call event' = true ->
       j = i.
Proof.
  destruct (handle_request_shape controller path payload)
    as [(code & text & ->)
       |(name & operation & Hpath & Hprivate & Hop &
         [(e & _ & [[Hclass ->] | ->])
         |[(decoded & _ & _ & ->)
          |(Hpayload & [(e & Hclass & ->) | [(status & data & ->) | (data & ->)]])]])];
    cbn [fst]; intros Hi Hcall;
    repeat (destruct i as [|i]; try discriminate Hi);
    cbn in Hi; injection Hi as <-; try discriminate Hcall;
    (split; [by exists name, operation|]);
    intros j event' Hj Hcall';
    repeat (destruct j as [|j]; try discriminate Hj);
    cbn in Hj; injection Hj as <-; try discriminate Hcall'; reflexivity.
Qed.

(** X7: a request that gets as far as reading its body builds exactly one
    controller, and builds it with the JSON formatter whatever the body
    holds: a [txformat] field has a [bytes] name, which the lookup of the
    text [txformat] does not find. *)
Theorem handle_request_formatter (controller : Controller) (path name : string)
    (operation : Attribute) (decoded : gmap bitcoin.bytes (list bitcoin.bytes)) :
  RpcServer.search_operation path = Some name ->
  is_private name = false ->
  getattr controller name = Some operation ->
  exists after,
    (handle_request controller path (Return decoded)).1
    = new_controller json_formatter :: after
    /\ forall event, event ∈ after -> forall other, event <> new_controller other.
Proof.
  intros Hpath Hprivate Hop.
  destruct (decide (decoded = ∅)) as [->|Hfields].
  - destruct operation as [function| |object].
    + rewrite (handle_request_function _ _ name function) by done.
      destruct (call function _ [] ∅) as [result|e].
      * eexists. split; [reflexivity|]. intros event Hin other ->.
        destruct (json_serializable result); no_such_event Hin.
      * eexists. split; [reflexivity|]. intros event Hin other ->.
        destruct e as [[] type_name text]; no_such_event Hin.
    + by destruct (getattr_not_none controller name).
    + rewrite (handle_request_object _ _ name object) by done.
      destruct (object _ ∅) as [result|e].
      * eexists. split; [reflexivity|]. intros event Hin other ->.
        destruct (json_serializable result); no_such_event Hin.
      * eexists. split; [reflexivity|]. intros event Hin other ->.
        destruct e as [[] type_name text]; no_such_event Hin.
  - rewrite (handle_request_fields _ _ name operation) by done.
    eexists. split; [reflexivity|]. intros event Hin other ->. no_such_event Hin.
Qed.

(** X14: a body with at least one field is answered with code 104 and status
    400, whatever the field and whatever the attribute asked for: the names
    [parse_qs] gives for a body read as [bytes] are [bytes] objects, which
    cannot be passed as keywords, so nothing is called. *)
Theorem handle_request_field_rejected (controller : Controller) (path name : string)
    (operation : Attribute) (decoded : gmap bitcoin.bytes (list bitcoin.bytes))
    (field : bitcoin.bytes) :
  RpcServer.search_operation path = Some name ->
  is_private name = false ->
  getattr controller name = Some operation ->
  is_Some (decoded !! field) ->
  (exists e,
      keywords (kmap KBytes (RpcServer.values <$> decoded)) = Raise e
      /\ class e = TypeError)
  /\ handle_request controller path (Return decoded)
     = ([ new_controller json_formatter;
          send_headers 400;
          response_write_json (error_body 104 "Invalid parameters provided") ],
        Return tt).
Proof.
  intros Hpath Hprivate Hop [values Hfield].
  assert (decoded <> ∅) as Hne.
  { intros ->. by rewrite lookup_empty in Hfield. }
  split; [|by apply (handle_request_fields _ _ name operation)].
  rewrite keywords_bytes; [by eexists|]. by intros ?%fmap_empty_iff.
Qed.


(** X17: a function that returns what the controller's formatter makes of a
    transaction, or of a value that can be written as JSON, is answered with
    status 200 and that as the body. *)
Theorem handle_request_formatted (controller : Controller) (path name : string)
    (operation : PyFunction) (value formatted : PyValue) :
  RpcServer.search_operation path = Some name ->
  is_private name = false ->
  getattr controller name = Some (attr_function operation) ->
  is_transaction value = true \/ json_serializable value = true ->
  json_formatter value = Return formatted ->
  call operation {| tx_parser := json_formatter |} [] ∅ = Return formatted ->
  handle_request controller path (Return ∅)
  = ([ new_controller json_formatter;
       call_operation operation ∅;
       send_headers 200;
       response_write_json formatted ],
     Return tt).
Proof.
  intros Hpath Hprivate Hop Hvalue Hformatted Hcall.
  rewrite (handle_request_function _ _ name operation) by done.
  rewrite Hcall.
  by rewrite (formatter_serializable serialize _ value formatted Hformatted Hvalue).
Qed.

End HandlerFacts.

(** ** The command-line router *)

Abbreviation txformat_option :=
  (Router.optional "--txformat"
     (Some "Format of transactions if a transaction is returned ('raw' or 'json')")
     (VStr "json")).

Abbreviation declared_argument :=
  (fun p : Param =>
     match default p with
     | None => Router.positional (Py.name p) (annotation p)
     | Some value => Router.optional ("--" +:+ Py.name p) (annotation p) value
     end).

Abbreviation is_declared :=
  (fun p : Param =>
     negb (String.eqb (Py.name p) "self")
     && bool_decide (kind p = POSITIONAL_OR_KEYWORD)).

Abbreviation is_required :=
  (fun p : Param => match default p with None => true | Some _ => false end).

(** The subparser of a function: its help text, [_execute_operation] of the
    function as [_func], the arguments of its declared parameters and then
    the [--txformat] option. *)
Abbreviation grammar_of function :=
  {| Router.help := __doc__ function;
     Router._func := Some (Router.func_execute_operation function);
     Router.arguments :=
       (declared_argument <$> List.filter is_declared (parameters function))
       ++ [txformat_option] |}.

(** A signature [argparse] accepts: no two parameters of one name (which
    Python guarantees) and no declared parameter with a default that is named
    [txformat] or [help], whose option string would be in use already. *)
Abbreviation registrable function :=
  (NoDup (Py.name <$> parameters function)
   /\ forall p, p ∈ parameters function -> is_declared p = true ->
        is_Some (default p) ->
        Py.name p <> "txformat" /\ Py.name p <> "help").

Section GrammarFacts.

Variable message : LibraryError -> string.

Abbreviation grown subparser ps :=
  {| Router.help := Router.help subparser;
     Router._func := Router._func subparser;
     Router.arguments :=
       Router.arguments subparser
       ++ (declared_argument <$> List.filter is_declared ps) |}.

Lemma option_strings_positional (subparser : Router.Subparser)
    (dest : string) (help : option string) :
  Router.option_strings
    {| Router.help := Router.help subparser;
       Router._func := Router._func subparser;
       Router.arguments :=
         Router.arguments subparser ++ [Router.positional dest help] |}
  = Router.option_strings subparser.
Proof.
  unfold Router.option_strings. cbn [Router.arguments].
  rewrite omap_app. cbn. by rewrite app_nil_r.
Qed.

Lemma option_strings_optional (subparser : Router.Subparser)
    (option_string : string) (help : option string) (value : PyValue) :
  Router.option_strings
    {| Router.help := Router.help subparser;
       Router._func := Router._func subparser;
       Router.arguments :=
         Router.arguments subparser
         ++ [Router.optional option_string help value] |}
  = Router.option_strings subparser ++ [option_string].
Proof.
  unfold Router.option_strings. cbn [Router.arguments].
  rewrite omap_app, app_assoc. reflexivity.
Qed.

Lemma dashes_inj (s t : string) : "--" +:+ s = "--" +:+ t -> s = t.
Proof. intros H. change (String "-" (String "-" s) = String "-" (String "-" t)) in H. by injection H. Qed.

(** The loop over the parameters adds the arguments of the declared ones when
    no option string comes twice. *)
Lemma for_each_add_parameter (ps : list Param) (subparser : Router.Subparser) :
  NoDup (Py.name <$> ps) ->
  (forall p, p ∈ ps -> is_declared p = true -> is_Some (default p) ->
     ("--" +:+ Py.name p) ∉ Router.option_strings subparser) ->
  for_each (Router.add_parameter message) ps subparser
  = Return (grown subparser ps).
Proof.
  revert subparser. induction ps as [|p ps IH]; intros subparser Hdup Hfree.
  { simpl. destruct subparser. by rewrite app_nil_r. }
  rewrite fmap_cons in Hdup. apply NoDup_cons in Hdup as [Hfresh Hdup].
  assert (forall q, q ∈ ps -> is_declared q = true -> is_Some (default q) ->
            ("--" +:+ Py.name q) ∉ Router.option_strings subparser) as Hfree'.
  { intros q Hq. apply Hfree. by right. }
  pose proof (Hfree p (list_elem_of_here _ _)) as Hp.
  cbn [for_each List.filter]. unfold Router.add_parameter at 1.
  destruct (String.eqb (Py.name p) "self"); cbn [negb andb].
  { by apply IH. }
  destruct (bool_decide (kind p = POSITIONAL_OR_KEYWORD)); cbn [negb].
  2: { by apply IH. }
  destruct (default p) as [value|] eqn:Hdefault; unfold Router.add_argument.
  - rewrite bool_decide_eq_false_2 by (apply Hp; [done | by eexists]).
    rewrite IH; [|done|].
    + cbn [Router.help Router._func Router.arguments fmap list_fmap].
      rewrite Hdefault. by rewrite <- app_assoc.
    + intros q Hq Hdeclared Hoptional. rewrite option_strings_optional.
      apply not_elem_of_app. split; [by apply Hfree'|].
      intros Heq%list_elem_of_singleton%dashes_inj.
      apply Hfresh. rewrite <- Heq. by apply list_elem_of_fmap_2.
  - rewrite IH; [|done|].
    + cbn [Router.help Router._func Router.arguments fmap list_fmap].
      rewrite Hdefault. by rewrite <- app_assoc.
    + intros q Hq Hdeclared Hoptional. rewrite option_strings_positional.
      by apply Hfree'.
Qed.

(** When the loop ends without an exception, it has added the arguments of
    the declared parameters, the option strings in use before are in use
    after, and none of the options it added was in use before. *)
Lemma for_each_add_parameter_returns (ps : list Param)
    (subparser result : Router.Subparser) :
  for_each (Router.add_parameter message) ps subparser = Return result ->
  result = grown subparser ps
  /\ (forall o, o ∈ Router.option_strings subparser ->
        o ∈ Router.option_strings result)
  /\ (forall p, p ∈ ps -> is_declared p = true -> is_Some (default p) ->
        (("--" +:+ Py.name p) ∉ Router.option_strings subparser)
        /\ ("--" +:+ Py.name p) ∈ Router.option_strings result).
Proof.
  revert subparser. induction ps as [|p ps IH]; intros subparser.
  { simpl. intros [= <-]. split_and!.
    - destruct subparser. by rewrite app_nil_r.
    - done.
    - intros p Hp. by apply elem_of_nil in Hp. }
  cbn [for_each List.filter]. unfold Router.add_parameter at 1.
  destruct (String.eqb (Py.name p) "self") eqn:Hself; cbn [negb andb].
  { intros (-> & Hkept & Hadded)%IH. split_and!; [done..|].
    intros q [->|Hq]%elem_of_cons; [|by apply Hadded].
    by rewrite Hself. }
  destruct (bool_decide (kind p = POSITIONAL_OR_KEYWORD)) eqn:Hkind; cbn [negb].
  2: { intros (-> & Hkept & Hadded)%IH. split_and!; [done..|].
       intros q [->|Hq]%elem_of_cons; [|by apply Hadded].
       by rewrite Hself, Hkind. }
  destruct (default p) as [value|] eqn:Hdefault; unfold Router.add_argument.
  - destruct (bool_decide (("--" +:+ Py.name p) ∈ Router.option_strings subparser))
      eqn:Hused; [done|].
    apply bool_decide_eq_false_1 in Hused.
    intros (-> & Hkept & Hadded)%IH. split_and!.
    + cbn [Router.help Router._func Router.arguments fmap list_fmap].
      rewrite Hdefault. by rewrite <- app_assoc.
    + intros o Ho. apply Hkept. rewrite option_strings_optional.
      apply elem_of_app. by left.
    + intros q [->|Hq]%elem_of_cons Hdeclared Hoptional.
      * split; [done|]. apply Hkept. rewrite option_strings_optional.
        apply elem_of_app. right. by apply list_elem_of_singleton.
      * destruct (Hadded q Hq Hdeclared Hoptional) as [Hnew Hin].
        split; [|done]. intros Hold. apply Hnew.
        rewrite option_strings_optional. apply elem_of_app. by left.
  - intros (-> & Hkept & Hadded)%IH. split_and!.
    + cbn [Router.help Router._func Router.arguments fmap list_fmap].
      rewrite Hdefault. by rewrite <- app_assoc.
    + intros o Ho. apply Hkept. by rewrite option_strings_positional.
    + intros q [->|Hq]%elem_of_cons Hdeclared Hoptional.
      * rewrite Hdefault in Hoptional. by destruct Hoptional.
      * destruct (Hadded q Hq Hdeclared Hoptional) as [Hnew Hin].
        split; [|done]. by rewrite option_strings_positional in Hnew.
Qed.


Lemma create_subparser_returns (subparser result : Router.Subparser)
    (func : PyFunction) :
  Router._create_subparser message subparser func = Return result ->
  result
  = {| Router.help := Router.help subparser;
       Router._func := Some (Router.func_execute_operation func);
       Router.arguments :=
         Router.arguments subparser
         ++ (declared_argument <$> List.filter is_declared (parameters func))
         ++ [txformat_option] |}
  /\ forall p, p ∈ parameters func -> is_declared p = true ->
       is_Some (default p) ->
       (("--" +:+ Py.name p) ∉ Router.option_strings subparser)
       /\ Py.name p <> "txformat".
Proof.
  unfold Router._create_subparser.
  destruct (for_each _ (parameters func) _) as [added|e] eqn:Hloop; [|done].
  apply for_each_add_parameter_returns in Hloop as (-> & Hkept & Hadded).
  cbn [for_each Router.extra_parameters Router.add_extra_parameter].
  unfold Router.add_argument.
  destruct (bool_decide (("--" +:+ "txformat") ∈ _)) eqn:Hused; [done|].
  apply bool_decide_eq_false_1 in Hused.
  intros [= <-]. split.
  - cbn [Router.help Router._func Router.arguments Router.set_defaults].
    by rewrite <- app_assoc.
  - intros p Hp Hdeclared Hoptional.
    destruct (Hadded p Hp Hdeclared Hoptional) as [Hnew Hin].
    split; [done|]. intros Hname. apply Hused. by rewrite <- Hname.
Qed.


(** A fresh subparser takes the grammar of every signature [argparse]
    accepts. *)
Lemma create_subparser_fresh (help : option string) (func : PyFunction) :
  registrable func ->
  Router._create_subparser message (Router.new_parser help) func
  = Return {| Router.help := help;
              Router._func := Some (Router.func_execute_operation func);
              Router.arguments :=
                (declared_argument <$> List.filter is_declared (parameters func))
                ++ [txformat_option] |}.
Proof.
  intros [Hdup Hfree]. unfold Router._create_subparser.
  rewrite for_each_add_parameter; [|done|].
  - cbn [for_each Router.extra_parameters Router.add_extra_parameter].
    unfold Router.add_argument. rewrite bool_decide_eq_false_2.
    + cbn [Router.help Router._func Router.arguments Router.set_defaults
           Router.new_parser app].
      done.
    + unfold Router.option_strings.
      cbn [Router.help Router._func Router.arguments Router.set_defaults
           Router.new_parser app].
      intros [Hh|[Hhelp|Hin]%elem_of_cons]%elem_of_cons; [done|done|].
      apply list_elem_of_omap in Hin as (argument & Hin & Hoption).
      apply list_elem_of_fmap in Hin as (p & -> & Hp).
      apply list_elem_of_In, filter_In in Hp as [Hp%list_elem_of_In Hdeclared].
      destruct (default p) as [value|] eqn:Hdefault; [|done].
      injection Hoption as Hname. change (Py.name p = "txformat") in Hname.
      destruct (Hfree p Hp); [done | by eexists |].
      done.
  - intros p Hp Hdeclared Hoptional.
    destruct (Hfree p Hp Hdeclared Hoptional) as [_ Hhelp].
    unfold Router.option_strings. cbn.
    intros [Hh|[Hh|Hin]%elem_of_cons]%elem_of_cons.
    + done.
    + apply Hhelp. by apply dashes_inj.
    + by apply elem_of_nil in Hin.
Qed.

End GrammarFacts.

Section RouterFacts.

Variable serialize : bitcoin.CTransaction -> Outcome bitcoin.bytes.

Variable message : LibraryError -> string.

(** *** The members of the controller class *)

Lemma isfunction_Some (member : string * Attribute) (name : string)
    (function : PyFunction) :
  Router.isfunction member = Some (name, function)
  <-> member = (name, attr_function function).
Proof.
  destruct member as [key []]; unfold Router.isfunction; simpl;
    split; intros [= -> ->]; done || by subst.
Qed.

Lemma getmembers_elem (controller : Controller) (name : string)
    (function : PyFunction) :
  (name, function) ∈ Router.getmembers controller
  <-> controller !! name = Some (attr_function function).
Proof.
  unfold Router.getmembers. rewrite merge_sort_Permutation, list_elem_of_omap.
  split.
  - intros (member & Hin & ->%isfunction_Some).
    by apply elem_of_map_to_list in Hin.
  - intros Hin. exists (name, attr_function function).
    split; [by apply elem_of_map_to_list | by apply isfunction_Some].
Qed.

Lemma getmembers_NoDup (controller : Controller) :
  NoDup (Router.getmembers controller).*1.
Proof.
  unfold Router.getmembers. rewrite merge_sort_Permutation.
  pose proof (NoDup_fst_map_to_list controller) as Hdup. revert Hdup.
  generalize (map_to_list controller). intros members.
  induction members as [|[key attribute] members IH]; [done|].
  rewrite fmap_cons. intros [Hfresh Hdup]%NoDup_cons.
  destruct attribute; cbn; [|by apply IH..].
  apply NoDup_cons. split; [|by apply IH].
  intros ([name function] & Hname & Hin)%list_elem_of_fmap. simpl in Hname. subst name.
  apply list_elem_of_omap in Hin as (member & Hin & ->%isfunction_Some).
  apply Hfresh. by apply (list_elem_of_fmap_2 fst) in Hin.
Qed.

Lemma getmembers_lookup (controller : Controller) (name : string) :
  (list_to_map (Router.getmembers controller) : gmap string PyFunction) !! name
  = match controller !! name with
    | Some (attr_function function) => Some function
    | _ => None
    end.
Proof.
  apply option_eq. intros function.
  rewrite <- elem_of_list_to_map by apply getmembers_NoDup.
  rewrite getmembers_elem.
  destruct (controller !! name) as [[]|]; naive_solver.
Qed.

(** The loop over the members: every name that does not start with an
    underscore ends up registered with the grammar of its function. *)
Lemma add_members_lookup (members : list (string * PyFunction))
    (subparsers registered : gmap string Router.Subparser) :
  NoDup members.*1 ->
  (forall member, member ∈ members -> member.1 <> "") ->
  for_each (Router.add_member message) members subparsers = Return registered ->
  forall name,
    registered !! name =
      match (list_to_map members : gmap string PyFunction) !! name with
      | Some function =>
          if is_private name then subparsers !! name
          else Some (grammar_of function)
      | None => subparsers !! name
      end.
Proof.
  revert subparsers.
  induction members as [|[member function] members IH]; intros subparsers Hdup Hne.
  { intros [= <-] name. simpl. by rewrite lookup_empty. }
  apply NoDup_cons in Hdup as [Hfresh Hdup].
  assert (member <> "") as Hmember by (apply (Hne (member, function)); left).
  assert (forall m, m ∈ members -> m.1 <> "") as Hne'
    by (intros m Hm; apply Hne; by right).
  assert ((list_to_map members : gmap string PyFunction) !! member = None) as Hnone
    by (by apply not_elem_of_list_to_map_1).
  cbn [for_each]. unfold Router.add_member at 1.
  destruct member as [|first rest]; [done|]. cbn [getitem0].
  set (member := String first rest) in *.
  assert (negb (Ascii.eqb first "_") = negb (is_private member)) as ->
    by (by rewrite (is_private_first member first)).
  destruct (is_private member) eqn:Hprivate; cbn [negb].
  - intros Hloop name. rewrite (IH _ Hdup Hne' Hloop name). cbn [list_to_map foldr].
    destruct (decide (name = member)) as [->|Hname].
    + by rewrite lookup_insert_eq, Hnone, Hprivate.
    + by rewrite lookup_insert_ne.
  - destruct (Router._create_subparser _ _ _) as [subparser|e] eqn:Hcreate; [|done].
    apply create_subparser_returns in Hcreate as [-> _].
    intros Hloop name. rewrite (IH _ Hdup Hne' Hloop name). cbn [list_to_map foldr].
    destruct (decide (name = member)) as [->|Hname].
    + by rewrite !lookup_insert_eq, Hnone, Hprivate.
    + by rewrite !lookup_insert_ne.
Qed.

(** The loop ends without an exception when every function it registers has
    a signature [argparse] accepts. *)
Lemma add_members_returns (members : list (string * PyFunction))
    (subparsers : gmap string Router.Subparser) :
  (forall member, member ∈ members -> member.1 <> "") ->
  (forall member, member ∈ members -> is_private member.1 = false ->
     registrable member.2) ->
  exists registered,
    for_each (Router.add_member message) members subparsers = Return registered.
Proof.
  revert subparsers.
  induction members as [|[member function] members IH]; intros subparsers Hne Hfits.
  { by eexists. }
  assert (member <> "") as Hmember by (apply (Hne (member, function)); left).
  cbn [for_each]. unfold Router.add_member at 1.
  destruct member as [|first rest]; [done|]. cbn [getitem0].
  set (member := String first rest) in *.
  assert (negb (Ascii.eqb first "_") = negb (is_private member)) as ->
    by (by rewrite (is_private_first member first)).
  destruct (is_private member) eqn:Hprivate; cbn [negb].
  - apply IH; intros m Hm; [apply Hne | apply Hfits]; by right.
  - rewrite create_subparser_fresh
      by (apply (Hfits (member, function)); [left | done]).
    apply IH; intros m Hm; [apply Hne | apply Hfits]; by right.
Qed.



Lemma init_subparsers (controller : Controller) (configuration : Configuration)
    (self : Router.t) :
  (forall function, controller !! "" <> Some (attr_function function)) ->
  Router.__init__ message controller configuration = Return self ->
  Router.controller self = controller
  /\ Router.configuration self = configuration
  /\ forall name,
       Router.subparsers self !! name =
         match controller !! name with
         | Some (attr_function function) =>
             if is_private name then None else Some (grammar_of function)
         | _ =>
             if String.eqb name "server" then Some Router.server_parser
             else None
         end.
Proof.
  intros Hempty. unfold Router.__init__.
  destruct (for_each _ _ _) as [registered|e] eqn:Hloop; [|done].
  intros [= <-]. split_and!; [done..|]. intros name. cbn [Router.subparsers].
  assert (forall member, member ∈ Router.getmembers controller -> member.1 <> "")
    as Hnames.
  { intros [key function] Hin%getmembers_elem Hkey. simpl in Hkey. subst key.
    by apply (Hempty function). }
  rewrite (add_members_lookup _ _ _ (getmembers_NoDup controller) Hnames Hloop name).
  rewrite getmembers_lookup.
  assert (({[ "server" := Router.server_parser ]} : gmap string Router.Subparser)
            !! name
          = if String.eqb name "server" then Some Router.server_parser else None)
    as Hserver.
  { destruct (String.eqb_spec name "server") as [->|Hname].
    - apply lookup_singleton_eq.
    - by apply lookup_singleton_ne. }
  destruct (controller !! name) as [[function| |object]|]; try exact Hserver.
  destruct (is_private name) eqn:Hprivate; [|done].
  apply lookup_singleton_ne. by intros <-.
Qed.

(** C3, as the router has it: for a controller class whose public functions
    have signatures [argparse] accepts, the subparsers hold the built-in
    [server] command and one command for each function of the class whose
    name does not start with an underscore, registered under that name with
    the grammar of the function; a function named [server] takes the place of
    the built-in command.  No name that starts with an underscore is
    registered. *)
Theorem init_registers_public_functions (controller : Controller)
    (configuration : Configuration) :
  (forall function, controller !! "" <> Some (attr_function function)) ->
  (forall name function,
     controller !! name = Some (attr_function function) ->
     is_private name = false ->
     registrable function) ->
  exists self,
    Router.__init__ message controller configuration = Return self
    /\ forall name,
         Router.subparsers self !! name =
           match controller !! name with
           | Some (attr_function function) =>
               if is_private name then None else Some (grammar_of function)
           | _ =>
               if String.eqb name "server" then Some Router.server_parser
               else None
           end.
Proof.
  intros Hempty Hfits.
  destruct (add_members_returns (Router.getmembers controller)
              {[ "server" := Router.server_parser ]}) as [registered Hloop].
  - intros [key function] Hin%getmembers_elem Hkey. simpl in Hkey. subst key.
    by apply (Hempty function).
  - intros [key function] Hin%getmembers_elem Hprivate.
    by apply (Hfits key).
  - assert (Router.__init__ message controller configuration
            = Return {| Router.controller := controller;
                        Router.configuration := configuration;
                        Router.subparsers := registered |}) as Hinit.
    { unfold Router.__init__. by rewrite Hloop. }
    eexists. split; [exact Hinit|].
    by destruct (init_subparsers _ _ _ Hempty Hinit) as (_ & _ & Hlookup).
Qed.


(** C5, as the router has it: for a signature [argparse] accepts, the grammar
    of an operation has, in declared order, one argument for each
    positional-or-keyword parameter not named [self] (a positional named
    after the parameter when it has no default, the option [--name] with the
    declared default when it has one) and, after them, one transport option,
    [--txformat] with default "json".  For an operation declared
    [(self, required_a, optional_b=5)], the arguments [VALUE_A] bind
    [optional_b] to 5 and [VALUE_A --optional_b 9] bind it to the text 9. *)
Theorem create_subparser_grammar (help : option string) (func : PyFunction) :
  let declared :=
    List.filter (fun p => negb (String.eqb (Py.name p) "self")
                          && bool_decide (kind p = POSITIONAL_OR_KEYWORD))
      (parameters func) in
  let grammar :=
    ((fun p =>
        match default p with
        | None => Router.positional (Py.name p) (annotation p)
        | Some value => Router.optional ("--" +:+ Py.name p) (annotation p) value
        end) <$> declared)
    ++ [ Router.optional "--txformat"
           (Some "Format of transactions if a transaction is returned ('raw' or 'json')")
           (VStr "json") ] in
  registrable func ->
  Router._create_subparser message (Router.new_parser help) func
  = Return {| Router.help := help;
              Router._func := Some (Router.func_execute_operation func);
              Router.arguments := grammar |}
  /\ (parameters func =
        [ {| Py.name := "self"; kind := POSITIONAL_OR_KEYWORD;
             default := None; annotation := None |};
          {| Py.name := "required_a"; kind := POSITIONAL_OR_KEYWORD;
             default := None; annotation := None |};
          {| Py.name := "optional_b"; kind := POSITIONAL_OR_KEYWORD;
             default := Some (VInt 5); annotation := None |} ] ->
      let parse_arguments :=
        Router.parse_arguments grammar (Router.positionals grammar) false
          (Router.initial_namespace grammar) in
      parse_arguments ["VALUE_A"]
      = inl (Some {[ "required_a" := VStr "VALUE_A"; "optional_b" := VInt 5;
                     "txformat" := VStr "json" ]})
      /\ parse_arguments ["VALUE_A"; "--optional_b"; "9"]
         = inl (Some {[ "required_a" := VStr "VALUE_A"; "optional_b" := VStr "9";
                        "txformat" := VStr "json" ]})
      /\ bind_arguments (parameters func) [VInstance]
           {[ "required_a" := VStr "VALUE_A"; "optional_b" := VInt 5 ]}
         = Return {[ "self" := VInstance; "required_a" := VStr "VALUE_A";
                     "optional_b" := VInt 5 ]}
      /\ bind_arguments (parameters func) [VInstance]
           {[ "required_a" := VStr "VALUE_A"; "optional_b" := VStr "9" ]}
         = Return {[ "self" := VInstance; "required_a" := VStr "VALUE_A";
                     "optional_b" := VStr "9" ]}).
Proof.
  intros declared grammar Hfits. split; [by apply create_subparser_fresh|].
  intros Hsignature parse_arguments.
  unfold parse_arguments, grammar, declared. rewrite Hsignature. clear.
  split_and!; vm_compute; reflexivity.
Qed.

(** *** What parsing keeps of the grammar *)

(** The positionals of a grammar are the declared parameters without a
    default, in their order. *)
Lemma positionals_declared (ps : list Param) :
  Router.positionals ((declared_argument <$> ps) ++ [txformat_option])
  = Py.name <$> List.filter is_required ps.
Proof.
  unfold Router.positionals. rewrite omap_app. simpl. rewrite app_nil_r.
  induction ps as [|p ps IH]; [done|].
  rewrite fmap_cons. cbn [List.filter]. destruct (default p) eqn:Hdefault.
  - cbn. exact IH.
  - cbn. f_equal. exact IH.
Qed.

(** The destinations of the positionals are among those of the grammar. *)
Lemma required_dests (ps : list Param) (key : string) :
  key ∈ Py.name <$> List.filter is_required ps ->
  key ∈ Router.dest_of <$> (declared_argument <$> ps).
Proof.
  intros (p & -> & Hp)%list_elem_of_fmap.
  apply list_elem_of_In, filter_In in Hp as [Hp%list_elem_of_In Hrequired].
  apply list_elem_of_fmap. exists (declared_argument p). split.
  - by destruct (default p).
  - apply list_elem_of_fmap. by exists p.
Qed.

(** The namespace before parsing has the destinations of the grammar and no
    other key, and each destination has the default of the first argument
    stored under it. *)
Lemma initial_namespace_other (arguments : list Router.Argument) (key : string) :
  key ∉ Router.dest_of <$> arguments ->
  forall ns : gmap string PyValue,
    foldl (fun ns argument =>
             match ns !! Router.dest_of argument with
             | Some _ => ns
             | None =>
                 match argument with
                 | Router.positional dest _ => <[dest := VNone]> ns
                 | Router.optional _ _ default =>
                     <[Router.dest_of argument := default]> ns
                 end
             end) ns arguments !! key
    = ns !! key.
Proof.
  induction arguments as [|argument arguments IH]; intros Hkey ns; [done|].
  rewrite fmap_cons in Hkey. apply not_elem_of_cons in Hkey as [Hne Hkey].
  cbn [foldl]. rewrite IH by done.
  destruct (ns !! Router.dest_of argument); [done|].
  destruct argument; by rewrite lookup_insert_ne.
Qed.

Lemma initial_namespace_txformat (before : list Router.Argument) :
  is_Some (Router.initial_namespace (before ++ [txformat_option]) !! "txformat")
  /\ ("txformat" ∉ Router.dest_of <$> before ->
      Router.initial_namespace (before ++ [txformat_option]) !! "txformat"
      = Some (VStr "json")).
Proof.
  unfold Router.initial_namespace. rewrite foldl_app. cbn [foldl].
  change (Router.dest_of txformat_option) with "txformat".
  split.
  - destruct (foldl _ _ before !! "txformat") as [value|] eqn:Hbefore.
    + rewrite Hbefore. by eexists.
    + rewrite lookup_insert_eq. by eexists.
  - intros Hfree.
    rewrite (initial_namespace_other before "txformat" Hfree ∅), lookup_empty.
    apply lookup_insert_eq.
Qed.

(** Parsing only adds to the namespace. *)
Lemma parse_arguments_keeps (arguments : list Router.Argument) (key : string)
    (argv : list string) :
  forall (pending : list string) (extras : bool) (ns parsed : gmap string PyValue),
    is_Some (ns !! key) ->
    Router.parse_arguments arguments pending extras ns argv = inl (Some parsed) ->
    is_Some (parsed !! key).
Proof.
  assert (forall (ns : gmap string PyValue) dest value,
            is_Some (ns !! key) -> is_Some (<[dest := value]> ns !! key)) as Hkeep.
  { intros ns dest value Hkey. destruct (decide (dest = key)) as [->|Hne].
    - rewrite lookup_insert_eq. by eexists.
    - by rewrite lookup_insert_ne. }
  assert (forall bound (argv : list string), (length argv <= bound)%nat ->
            forall (pending : list string) (extras : bool)
                   (ns parsed : gmap string PyValue),
              is_Some (ns !! key) ->
              Router.parse_arguments arguments pending extras ns argv
                = inl (Some parsed) ->
              is_Some (parsed !! key)) as Hbound;
    [|by apply (Hbound (length argv))].
  clear argv.
  induction bound as [|bound IH]; intros argv Hlength pending extras ns parsed Hkey.
  { destruct argv; [|simpl in Hlength; lia]. simpl.
    destruct pending; [|done]. destruct extras; [done|]. by intros [= <-]. }
  destruct argv as [|word argv]; simpl.
  { destruct pending; [|done]. destruct extras; [done|]. by intros [= <-]. }
  simpl in Hlength. destruct (Router.starts_with_dash word).
  - destruct (Router.find_option word arguments) as [dest|]; [|done].
    destruct argv as [|value argv].
    + apply IH; [simpl; lia | by apply Hkeep].
    + destruct (Router.starts_with_dash value).
      * apply IH; [simpl in *; lia | by apply Hkeep].
      * apply IH; [simpl in *; lia | by apply Hkeep].
  - destruct pending as [|dest pending].
    + apply IH; [lia | done].
    + apply IH; [lia | by apply Hkeep].
Qed.

(** Plain words, none starting with a dash, fill the positionals one by one:
    parsing succeeds exactly when there are as many words as positionals. *)
Lemma parse_arguments_words (arguments : list Router.Argument) (argv : list string) :
  Forall (fun word => Router.starts_with_dash word = false) argv ->
  forall (pending : list string) (extras : bool) (ns : gmap string PyValue),
    Router.parse_arguments arguments pending extras ns argv
    = if bool_decide (length argv = length pending) && negb extras
      then inl (Some (foldl (fun ns bound => <[bound.1 := VStr bound.2]> ns) ns
                        (zip pending argv)))
      else inl None.
Proof.
  induction 1 as [|word argv Hword _ IH]; intros pending extras ns.
  - destruct pending, extras; by simpl.
  - simpl. rewrite Hword. destruct pending as [|dest pending].
    + rewrite IH. cbn [negb]. by rewrite andb_false_r.
    + rewrite IH. simpl.
      destruct (decide (length argv = length pending)) as [Heq|Hne].
      * rewrite !bool_decide_eq_true_2 by (simpl; lia). done.
      * rewrite !bool_decide_eq_false_2 by (simpl; lia). done.
Qed.

(** What a run of insertions leaves under a key it does not touch, and under
    one it does. *)
Lemma foldl_insert_other (keys words : list string) (ns : gmap string PyValue)
    (key : string) :
  key ∉ (zip keys words).*1 ->
  foldl (fun ns bound => <[bound.1 := VStr bound.2]> ns) ns (zip keys words) !! key
  = ns !! key.
Proof.
  generalize (zip keys words). intros bindings. revert ns.
  induction bindings as [|[k w] bindings IH]; intros ns Hkey; [done|].
  rewrite fmap_cons in Hkey. apply not_elem_of_cons in Hkey as [Hne Hkey].
  simpl. rewrite IH by done. by apply lookup_insert_ne.
Qed.

Lemma foldl_insert_bound (keys words : list string) (ns : gmap string PyValue)
    (i : nat) (key word : string) :
  NoDup keys ->
  keys !! i = Some key -> words !! i = Some word ->
  foldl (fun ns bound => <[bound.1 := VStr bound.2]> ns) ns (zip keys words) !! key
  = Some (VStr word).
Proof.
  revert ns words i. induction keys as [|k keys IH]; intros ns words i Hdup Hkey Hword.
  { done. }
  apply NoDup_cons in Hdup as [Hfresh Hdup].
  destruct words as [|w words]; [by destruct i|].
  destruct i as [|i]; simpl in *.
  - injection Hkey as ->. injection Hword as ->.
    rewrite foldl_insert_other.
    + apply lookup_insert_eq.
    + intros Hin. apply Hfresh.
      apply list_elem_of_fmap in Hin as ([k' w'] & -> & Hin).
      by apply elem_of_zip_l in Hin.
  - by apply (IH _ _ i).
Qed.

(** *** Commands *)

Ltac no_such_event Hin :=
  repeat (apply elem_of_cons in Hin as [Hin|Hin]; [discriminate|]);
  by apply elem_of_nil in Hin.

Abbreviation formatter_of txformat :=
  (Router.get_transaction_formatter serialize txformat).

Abbreviation _execute_operation := (Router._execute_operation serialize message).

Abbreviation parse := (Router.parse serialize message).

(** C6: when the operation of a command raises a controller error the router
    writes the one line [Error: ] followed by the message, when it raises a
    transaction-builder error the one line [Error: ] followed by the name of
    the error's class, and in both cases the command returns; any other
    exception leaves the router, which writes nothing. *)
Theorem execute_operation_failure (function : PyFunction)
    (args : gmap string PyValue) (txformat : PyValue) (e : Exn) :
  args !! "txformat" = Some txformat ->
  call function {| tx_parser := formatter_of txformat |} []
    (delete "txformat" args) = Raise e ->
  _execute_operation function args
  = ([ new_controller (formatter_of txformat);
       call_operation function (delete "txformat" args) ]
     ++ match class e with
        | ControllerError => [ output_write ("Error: " +:+ str e +:+ LF) ]
        | TransactionBuilderError =>
            [ output_write ("Error: " +:+ __name__ e +:+ LF) ]
        | _ => []
        end,
     match class e with
     | ControllerError | TransactionBuilderError => Return tt
     | _ => Raise e
     end).
Proof.
  intros Htxformat Hcall. unfold Router._execute_operation.
  rewrite Htxformat. cbn -[delete]. rewrite Hcall.
  destruct e as [[] type_name text]; reflexivity.
Qed.

(** Every run of a command has one of three shapes. *)
Lemma execute_operation_shape (function : PyFunction) (args : gmap string PyValue) :
  (args !! "txformat" = None
   /\ exists e, _execute_operation function args = ([], Raise e))
  \/ (exists txformat,
        args !! "txformat" = Some txformat
        /\ ((exists line,
               _execute_operation function args
               = ([ new_controller (formatter_of txformat);
                    call_operation function (delete "txformat" args);
                    line ],
                  Return tt)
               /\ ((exists text, line = output_write text)
                   \/ (exists result, line = output_write_json result)))
            \/ (exists e,
                  _execute_operation function args
                  = ([ new_controller (formatter_of txformat);
                       call_operation function (delete "txformat" args) ],
                     Raise e)))).
Proof.
  unfold Router._execute_operation.
  destruct (args !! "txformat") as [txformat|]; [right | left; split; [done|by eexists]].
  exists txformat. split; [done|]. cbn -[delete].
  destruct (call function _ [] _) as [result|e]; cbn -[delete].
  - unfold json_dumps. destruct (json_serializable result); cbn -[delete].
    + left. eexists. split; [done|]. right. by eexists.
    + right. by eexists.
  - destruct e as [[] type_name text]; cbn -[delete];
      first [ right; by eexists | left; eexists; split; [done|]; left; by eexists ].
Qed.

(** X8: when the operation of a command returns, the router writes the
    result as one JSON line if the result can be written as JSON; if it
    cannot, the [TypeError] of [json.dumps] leaves the router and nothing is
    written. *)
Theorem execute_operation_result (function : PyFunction)
    (args : gmap string PyValue) (txformat result : PyValue) :
  args !! "txformat" = Some txformat ->
  call function {| tx_parser := formatter_of txformat |} []
    (delete "txformat" args) = Return result ->
  _execute_operation function args
  = if json_serializable result then
      ([ new_controller (formatter_of txformat);
         call_operation function (delete "txformat" args);
         output_write_json result ],
       Return tt)
    else
      ([ new_controller (formatter_of txformat);
         call_operation function (delete "txformat" args) ],
       Raise (type_error (message (not_serializable result)))).
Proof.
  intros Htxformat Hcall. unfold Router._execute_operation.
  rewrite Htxformat. cbn -[delete]. rewrite Hcall. cbn -[delete].
  unfold json_dumps. by destruct (json_serializable result).
Qed.

(** X9: a command that returns has written exactly one line, the last thing
    it did; a command that ends in an exception has written nothing. *)
Theorem execute_operation_writes_once (function : PyFunction)
    (args : gmap string PyValue) :
  let written event :=
    (exists text, event = output_write text)
    \/ (exists result, event = output_write_json result) in
  (exists before line,
      _execute_operation function args = (before ++ [line], Return tt)
      /\ written line
      /\ forall event, event ∈ before -> ~ written event)
  \/ (exists e,
        (_execute_operation function args).2 = Raise e
        /\ forall event,
             event ∈ (_execute_operation function args).1 ->
             ~ written event).
Proof.
  intros written.
  destruct (execute_operation_shape function args)
    as [(_ & e & ->)
       |(txformat & _ & [(line & -> & Hline) | (e & ->)])].
  - right. exists e. split; [done|]. intros event Hin. by apply elem_of_nil in Hin.
  - left. eexists [_; _], line. split; [done|]. split; [exact Hline|].
    intros event Hin [[text ->] | [result ->]]; no_such_event Hin.
  - right. exists e. split; [done|].
    intros event Hin [[text ->] | [result ->]]; cbn in Hin; no_such_event Hin.
Qed.

(** A command line accepted as the command of an operation names a function
    of the controller that is not private, and its namespace has [txformat]. *)
Lemma parse_args_operation (controller : Controller) (configuration : Configuration)
    (self : Router.t) (argv : list string) (args : gmap string PyValue)
    (function : PyFunction) :
  (forall function, controller !! "" <> Some (attr_function function)) ->
  Router.__init__ message controller configuration = Return self ->
  Router.parse_args self argv
    = Router.namespace args (Some (Router.func_execute_operation function)) ->
  exists command words,
    argv = command :: words
    /\ is_private command = false
    /\ controller !! command = Some (attr_function function)
    /\ is_Some (args !! "txformat").
Proof.
  intros Hempty Hinit.
  destruct (init_subparsers _ _ _ Hempty Hinit) as (_ & _ & Hlookup).
  unfold Router.parse_args. destruct argv as [|command words]; [done|].
  destruct (Router.starts_with_dash command); [done|].
  rewrite Hlookup.
  assert (forall outcome : Router.Parsed,
            match (if String.eqb command "server" then Some Router.server_parser
                   else None) with
            | Some subparser =>
                match Router.parse_arguments (Router.arguments subparser)
                        (Router.positionals (Router.arguments subparser)) false
                        (Router.initial_namespace (Router.arguments subparser))
                        words with
                | inl (Some ns) => Router.namespace ns (Router._func subparser)
                | inl None => Router.usage_error
                | inr _ => Router.unmodelled
                end
            | None => Router.usage_error
            end
            <> Router.namespace args (Some (Router.func_execute_operation function)))
    as Hserver.
  { intros _. destruct (String.eqb command "server"); [|done]. simpl.
    by destruct (Router.parse_arguments _ _ _ _ words) as [[ns|]|]. }
  destruct (controller !! command) as [[registered| |object]|] eqn:Hcommand;
    try (intros Hparse; by destruct (Hserver Router.unmodelled)).
  destruct (is_private command) eqn:Hprivate; [done|].
  cbn [Router.arguments Router._func].
  destruct (Router.parse_arguments _ _ _ _ words) as [[ns|]|] eqn:Hparse; [|done..].
  intros [= <- <-]. exists command, words. split_and!; [done..|].
  eapply parse_arguments_keeps; [|exact Hparse].
  apply initial_namespace_txformat.
Qed.

(** X10: on a command line [parse] handles, the router calls at most the one
    operation it names: a function of the controller whose name does not
    start with an underscore, on a controller built just before, and without
    [txformat] among its keywords. *)
Theorem parse_calls_public (controller : Controller) (configuration : Configuration)
    (self : Router.t) (argv : list string) (run : M unit)
    (function : PyFunction) (kwargs : gmap string PyValue) :
  (forall function, controller !! "" <> Some (attr_function function)) ->
  Router.__init__ message controller configuration = Return self ->
  parse self argv = Some run ->
  call_operation function kwargs ∈ run.1 ->
  exists command words tx_parser after,
    argv = command :: words
    /\ is_private command = false
    /\ controller !! command = Some (attr_function function)
    /\ kwargs !! "txformat" = None
    /\ run.1 = new_controller tx_parser :: call_operation function kwargs :: after
    /\ forall event, event ∈ after -> forall f k, event <> call_operation f k.
Proof.
  intros Hempty Hinit. unfold Router.parse.
  destruct (Router.parse_args self argv) as [args func| |] eqn:Hparse; try done.
  2: { intros [= <-] Hin. by apply elem_of_nil in Hin. }
  destruct (args !! "_func") as [value|].
  { intros [= <-] Hin. by apply elem_of_nil in Hin. }
  destruct func as [[|registered]|].
  - intros [= <-]. unfold Router._run_rpc_server.
    destruct (rpc_enabled _); cbn; intros Hin; no_such_event Hin.
  - intros [= <-] Hin.
    destruct (parse_args_operation _ _ _ _ _ _ Hempty Hinit Hparse)
      as (command & words & -> & Hprivate & Hcommand & _).
    destruct (execute_operation_shape registered args)
      as [(_ & e & Hrun)
         |(txformat & _ & [(line & Hrun & Hline) | (e & Hrun)])];
      rewrite Hrun in Hin |- *; cbn [fst] in Hin |- *.
    + by apply elem_of_nil in Hin.
    + assert (function = registered /\ kwargs = delete "txformat" args) as [-> ->].
      { apply elem_of_cons in Hin as [Hin|Hin]; [done|].
        apply elem_of_cons in Hin as [[= -> ->]|Hin]; [done|].
        apply elem_of_cons in Hin as [Hin|Hin]; [|by apply elem_of_nil in Hin].
        by destruct Hline as [[text ->] | [result ->]]. }
      exists command, words. do 2 eexists. split_and!; [done..| apply lookup_delete_eq |done|].
      intros event Hevent f k ->. apply list_elem_of_singleton in Hevent.
      by destruct Hline as [[text ->] | [result ->]].
    + assert (function = registered /\ kwargs = delete "txformat" args) as [-> ->].
      { apply elem_of_cons in Hin as [Hin|Hin]; [done|].
        apply elem_of_cons in Hin as [[= -> ->]|Hin]; [done|].
        by apply elem_of_nil in Hin. }
      exists command, words. do 2 eexists. split_and!; [done..| apply lookup_delete_eq |done|].
      intros event Hevent. by apply elem_of_nil in Hevent.
  - intros [= <-] Hin. cbn in Hin. no_such_event Hin.
Qed.

(** X11: a command name that starts with an underscore, or that is neither a
    function of the controller nor [server], is not a command: the parser
    reports the error and exits, and the router has done nothing. *)
Theorem parse_rejects_unknown_command (controller : Controller)
    (configuration : Configuration) (self : Router.t)
    (command : string) (words : list string) :
  (forall function, controller !! "" <> Some (attr_function function)) ->
  Router.__init__ message controller configuration = Return self ->
  Router.starts_with_dash command = false ->
  is_private command = true
  \/ ((forall function, controller !! command <> Some (attr_function function))
      /\ command <> "server") ->
  parse self (command :: words) = Some ([], Raise Router.system_exit).
Proof.
  intros Hempty Hinit Hdash Hcommand.
  destruct (init_subparsers _ _ _ Hempty Hinit) as (_ & _ & Hlookup).
  unfold Router.parse, Router.parse_args. rewrite Hdash, Hlookup.
  assert (String.eqb command "server" = false) as ->.
  { destruct (String.eqb_spec command "server") as [->|]; [|done].
    by destruct Hcommand as [Hprivate | [_ Hserver]]. }
  destruct (controller !! command) as [[function| |object]|] eqn:Hattribute;
    try done.
  destruct Hcommand as [-> | [Hnone _]]; [done|]. by destruct (Hnone function).
Qed.

(** X12: the words after the name of an operation, none starting with a
    dash, are its positional arguments.  With a number of words other than
    the number of declared parameters without a default, the parser reports
    the error and exits before the router does anything.  With that number,
    the namespace has each such parameter with its word and, unless a
    declared parameter is stored under [txformat], "json" as [txformat]; the
    operation runs on it unless a declared parameter is stored under [_func],
    whose value [parse] then calls instead, which is a [TypeError]. *)
Theorem parse_words (controller : Controller) (configuration : Configuration)
    (self : Router.t) (command : string) (function : PyFunction)
    (words : list string) :
  let declared := List.filter is_declared (parameters function) in
  let required := Py.name <$> List.filter is_required declared in
  let dests := Router.dest_of <$> (declared_argument <$> declared) in
  (forall function, controller !! "" <> Some (attr_function function)) ->
  Router.__init__ message controller configuration = Return self ->
  Router.starts_with_dash command = false ->
  is_private command = false ->
  controller !! command = Some (attr_function function) ->
  Forall (fun word => Router.starts_with_dash word = false) words ->
  (length words <> length required ->
   parse self (command :: words) = Some ([], Raise Router.system_exit))
  /\ (length words = length required ->
      exists args,
        (NoDup required ->
         forall i parameter word,
           required !! i = Some parameter -> words !! i = Some word ->
           args !! parameter = Some (VStr word))
        /\ ("txformat" ∉ dests -> args !! "txformat" = Some (VStr "json"))
        /\ ("_func" ∉ dests ->
            parse self (command :: words)
            = Some (_execute_operation function args))
        /\ (forall value,
              args !! "_func" = Some value ->
              parse self (command :: words)
              = Some ([], Raise (type_error (message (not_callable value)))))).
Proof.
  intros declared required dests Hempty Hinit Hdash Hprivate Hcommand Hwords.
  destruct (init_subparsers _ _ _ Hempty Hinit) as (_ & _ & Hlookup).
  set (grammar := (declared_argument <$> declared) ++ [txformat_option]).
  assert (Router.parse_args self (command :: words)
          = match Router.parse_arguments grammar required false
                    (Router.initial_namespace grammar) words with
            | inr _ => Router.unmodelled
            | inl None => Router.usage_error
            | inl (Some ns) =>
                Router.namespace ns (Some (Router.func_execute_operation function))
            end) as Hparse.
  { unfold Router.parse_args. rewrite Hdash, Hlookup, Hcommand, Hprivate.
    cbn [Router.arguments Router._func]. fold declared. fold grammar.
    unfold grammar at 2. by rewrite positionals_declared. }
  unfold Router.parse. rewrite Hparse, (parse_arguments_words _ _ Hwords).
  cbn [negb]. rewrite andb_true_r.
  split; intros Hlength.
  - by rewrite bool_decide_eq_false_2.
  - rewrite bool_decide_eq_true_2 by done.
    set (args := foldl _ _ _).
    assert (forall key, key ∉ dests -> key <> "txformat" -> args !! key = None)
      as Hother.
    { intros key Hkey Hne. unfold args. rewrite foldl_insert_other.
      - unfold Router.initial_namespace.
        rewrite initial_namespace_other; [done|]. unfold grammar.
        rewrite fmap_app. apply not_elem_of_app. split; [done|].
        by intros ->%list_elem_of_singleton.
      - rewrite fst_zip by lia. intros Hin. apply Hkey.
        by apply required_dests. }
    exists args. split_and!.
    + intros Hdup i parameter word Hparameter Hword.
      by apply (foldl_insert_bound _ _ _ i).
    + intros Hfree. unfold args. rewrite foldl_insert_other.
      * by apply initial_namespace_txformat.
      * rewrite fst_zip by lia. intros Hin. apply Hfree.
        by apply required_dests.
    + intros Hfree. by rewrite Hother.
    + by intros value ->.
Qed.

(** X13: when the controller has no function called [server], the command
    [server] runs the RPC server: with RPC disabled in the configuration the
    router writes the one line that says so, creates no server and returns;
    with RPC enabled it creates the server on the configured port, announces
    it and leaves the event loop running.  Followed by words that do not
    start with a dash, the command is an error: the parser exits. *)
Theorem parse_server (controller : Controller) (configuration : Configuration)
    (self : Router.t) (word : string) (words : list string) :
  (forall function, controller !! "" <> Some (attr_function function)) ->
  Router.__init__ message controller configuration = Return self ->
  (forall function, controller !! "server" <> Some (attr_function function)) ->
  (rpc_enabled configuration = false ->
   parse self ["server"]
   = Some ([ output_write
               ("Error: RPC must be enabled in the configuration." +:+ LF) ],
           Return tt))
  /\ (rpc_enabled configuration = true ->
      exists run,
        parse self ["server"] = Some run
        /\ run.1 = [ create_server (rpc_port configuration);
                     output_write
                       ("Starting RPC server on port "
                        +:+ pretty (rpc_port configuration) +:+ "..." +:+ LF);
                     run_forever ])
  /\ (Forall (fun word => Router.starts_with_dash word = false) (word :: words) ->
      parse self ("server" :: word :: words)
      = Some ([], Raise Router.system_exit)).
Proof.
  intros Hempty Hinit Hserver.
  destruct (init_subparsers _ _ _ Hempty Hinit) as (_ & Hconfiguration & Hlookup).
  assert (Router.subparsers self !! "server" = Some Router.server_parser) as Hparser.
  { rewrite Hlookup.
    destruct (controller !! "server") as [[function| |object]|] eqn:Hattribute;
      try done.
    by destruct (Hserver function). }
  unfold Router.parse, Router.parse_args. cbn [Router.starts_with_dash].
  rewrite Hparser. split_and!.
  - intros Hdisabled. cbn. unfold Router._run_rpc_server.
    by rewrite Hconfiguration, Hdisabled.
  - intros Henabled. cbn. unfold Router._run_rpc_server.
    rewrite Hconfiguration, Henabled. by eexists.
  - intros Hwords. by rewrite (parse_arguments_words _ _ Hwords).
Qed.

End RouterFacts.

(** ** The facts on the sample inputs *)

Abbreviation sample_json_formatter :=
  (Router.get_transaction_formatter Samples.serialize (VStr "json")).

Abbreviation invalid_parameters :=
  (VDict [("error",
           VDict [("code", VInt 104);
                  ("message", VStr "Invalid parameters provided")])]).

Lemma formatter_passes_and_falls_back_witness :
  Router.get_transaction_formatter Samples.serialize (VStr "hex") (VInt 42)
  = Return (VInt 42)
  /\ Router.get_transaction_formatter Samples.serialize (VStr "hex")
       (VTransaction Samples.transaction)
     = Router.get_transaction_formatter Samples.serialize (VStr "raw")
         (VTransaction Samples.transaction).
Proof.
  split.
  - apply (proj1 (formatter_passes_and_falls_back
                    Samples.serialize (VStr "hex") (VInt 42))).
    reflexivity.
  - apply (proj2 (formatter_passes_and_falls_back
                    Samples.serialize (VStr "hex") (VTransaction Samples.transaction))).
    discriminate.
Defined.

(** C7, where it fails as stated: a transaction with an output value of 2^63
    has no serialized byte sequence, so the formatter selected by "raw"
    renders no hex text for it and raises the serializer's exception; the
    formatter selected by "json" renders the same transaction. *)
Lemma formatter_raw_unpackable :
  Samples.serialize Samples.unpackable = Raise Samples.struct_error
  /\ Router.get_transaction_formatter Samples.serialize (VStr "raw")
       (VTransaction Samples.unpackable)
     = Raise Samples.struct_error
  /\ exists data,
       Router.get_transaction_formatter Samples.serialize (VStr "json")
         (VTransaction Samples.unpackable)
       = Return data.
Proof. split_and!; [vm_compute; reflexivity .. | by eexists]. Qed.

Lemma formatter_returns_no_transaction_witness :
  exists result,
    Router.get_transaction_formatter Samples.serialize (VStr "raw")
      (VTransaction Samples.transaction) = Return result
    /\ is_transaction result = false
    /\ sample_json_formatter result = Return result.
Proof.
  eexists. split; [vm_compute; reflexivity|].
  apply (formatter_returns_no_transaction Samples.serialize (VStr "raw")
           (VStr "json") (VTransaction Samples.transaction)).
  vm_compute. reflexivity.
Defined.

Lemma formatter_result_serializable_witness :
  exists result,
    Router.get_transaction_formatter Samples.serialize (VStr "raw")
      (VTransaction Samples.transaction) = Return result
    /\ json_serializable result = true.
Proof.
  eexists. split; [vm_compute; reflexivity|].
  apply (proj1 (formatter_result_serializable Samples.serialize (VStr "raw")
                  (VTransaction Samples.transaction)) _ eq_refl).
  left. reflexivity.
Defined.

Lemma search_operation_line_feed_witness :
  RpcServer.search_operation ("/issue" +:+ LF) = RpcServer.search_operation "/issue".
Proof. apply (search_operation_line_feed "/issue"). reflexivity. Defined.

(** *** Requests *)

(** C1 at a request whose arguments fit the signature of the operation: the
    body of the operation raises a [TypeError], which is neither a controller
    error nor a transaction-builder error, and the handler answers with code
    104, 'Invalid parameters provided', and status 400; the claim has code 0,
    'Internal server error', and status 500 for such a failure. *)
Theorem handle_request_type_error_from_body
    (serialize : bitcoin.CTransaction -> Outcome bitcoin.bytes)
    (message : LibraryError -> string) :
  bind_arguments (parameters (Samples.fail Samples.operand_error)) [VInstance] ∅
  = Return {[ "self" := VInstance ]}
  /\ call (Samples.fail Samples.operand_error)
       {| tx_parser := Router.get_transaction_formatter serialize (VStr "json") |}
       [] ∅
     = Raise Samples.operand_error
  /\ RpcServer.handle_request serialize message
       {[ "fail" := attr_function (Samples.fail Samples.operand_error) ]}
       "/fail" (Return ∅)
     = ([ new_controller (Router.get_transaction_formatter serialize (VStr "json"));
          call_operation (Samples.fail Samples.operand_error) ∅;
          send_headers 400;
          response_write_json invalid_parameters ],
        Return tt).
Proof.
  split_and!; [vm_compute; reflexivity | reflexivity |].
  by rewrite (handle_request_function serialize message _ _ "fail"
                (Samples.fail Samples.operand_error)).
Qed.

(** C2 at the request bodies [txformat=raw] and [txformat=json], and any
    other value of the field: the name of the field is a [bytes] object, so
    the lookup of the text [txformat] finds nothing; the controller is built
    with the formatter of "json" whatever the value, the field stays among
    the fields, which cannot be passed as keywords, and the request is
    answered with code 104 without the operation being called.  The same
    request with an empty body is answered with the transaction as a JSON
    object. *)
Theorem handle_request_txformat_field
    (serialize : bitcoin.CTransaction -> Outcome bitcoin.bytes)
    (message : LibraryError -> string) (value : string) :
  RpcServer.handle_request serialize message Samples.controller "/show"
    (Return (Samples.field "txformat" value))
  = ([ new_controller (Router.get_transaction_formatter serialize (VStr "json"));
       send_headers 400;
       response_write_json invalid_parameters ],
     Return tt)
  /\ exists data,
       Router.get_transaction_formatter serialize (VStr "json")
         (VTransaction Samples.transaction) = Return data
       /\ RpcServer.handle_request serialize message Samples.controller "/show"
            (Return ∅)
          = ([ new_controller (Router.get_transaction_formatter serialize (VStr "json"));
               call_operation Samples.show ∅;
               send_headers 200;
               response_write_json data ],
             Return tt).
Proof.
  split.
  - apply (handle_request_fields serialize message _ _ "show"
             (attr_function Samples.show)); [reflexivity | reflexivity | reflexivity |].
    apply map_non_empty_singleton.
  - eexists. split; [reflexivity|].
    by rewrite (handle_request_function serialize message _ _ "show" Samples.show).
Qed.

(** C4 at the path [/mro]: for a controller class without an attribute of
    that name, [getattr] finds the method every class has from [type]; the
    handler builds a controller and calls it, and the request is answered
    with code 104, where the claim has code 103 and nothing invoked for a
    name that is absent from the provider. *)
Theorem handle_request_mro
    (serialize : bitcoin.CTransaction -> Outcome bitcoin.bytes)
    (message : LibraryError -> string) (controller : Controller) :
  controller !! "mro" = None ->
  getattr controller "mro" = Some type_mro
  /\ RpcServer.handle_request serialize message controller "/mro" (Return ∅)
     = ([ new_controller (Router.get_transaction_formatter serialize (VStr "json"));
          call_attribute "mro" ∅;
          send_headers 400;
          response_write_json invalid_parameters ],
        Return tt).
Proof.
  intros Hmro.
  assert (getattr controller "mro" = Some type_mro) as Hattribute.
  { unfold getattr. by rewrite Hmro. }
  split; [done|].
  by rewrite (handle_request_object serialize message controller "/mro" "mro" _
                eq_refl eq_refl Hattribute).
Qed.

Lemma handle_request_mro_witness :
  RpcServer.handle_request Samples.serialize Samples.message Samples.controller
    "/mro" (Return ∅)
  = ([ new_controller sample_json_formatter;
       call_attribute "mro" ∅;
       send_headers 400;
       response_write_json invalid_parameters ],
     Return tt).
Proof.
  apply (proj2 (handle_request_mro Samples.serialize Samples.message
                  Samples.controller ltac:(vm_compute; reflexivity))).
Defined.

(** C9 at the request body [required_a=x] for an operation declared
    [(self, required_a, optional_b=5)]: the name of the field is a [bytes]
    object, the fields cannot be passed as keywords, and the request is
    answered with code 104 without the operation being called; the field does
    not reach the operation, whose signature it fits. *)
Theorem handle_request_field_not_passed
    (serialize : bitcoin.CTransaction -> Outcome bitcoin.bytes)
    (message : LibraryError -> string) :
  (exists e,
      keywords (kmap KBytes (RpcServer.values <$> Samples.field "required_a" "x"))
      = Raise e
      /\ class e = TypeError)
  /\ RpcServer.handle_request serialize message Samples.controller "/echo"
       (Return (Samples.field "required_a" "x"))
     = ([ new_controller (Router.get_transaction_formatter serialize (VStr "json"));
          send_headers 400;
          response_write_json invalid_parameters ],
        Return tt)
  /\ exists env,
       bind_arguments (parameters Samples.echo) [VInstance]
         {[ "required_a" := VList [VBytes (String.list_byte_of_string "x")] ]}
       = Return env.
Proof.
  split_and!.
  - eexists. split; [vm_compute; reflexivity | reflexivity].
  - apply (handle_request_fields serialize message _ _ "echo"
             (attr_function Samples.echo)); [reflexivity | reflexivity | reflexivity |].
    apply map_non_empty_singleton.
  - eexists. vm_compute. reflexivity.
Qed.

Lemma handle_request_rejects_witness :
  RpcServer.handle_request Samples.serialize Samples.message Samples.controller
    "/issue/extra" (Return ∅)
  = ([ send_headers 400;
       response_write_json
         (VDict [("error",
                  VDict [("code", VInt 102);
                         ("message", VStr "The request path is invalid")])]) ],
     Return tt)
  /\ RpcServer.handle_request Samples.serialize Samples.message Samples.controller
       "/_fail" (Return ∅)
     = ([ send_headers 400;
          response_write_json
            (VDict [("error",
                     VDict [("code", VInt 103);
                            ("message",
                             VStr "The operation name _fail is invalid")])]) ],
        Return tt)
  /\ RpcServer.handle_request Samples.serialize Samples.message Samples.controller
       "/issue" (Return ∅)
     = ([ send_headers 400;
          response_write_json
            (VDict [("error",
                     VDict [("code", VInt 103);
                            ("message",
                             VStr "The operation name issue is invalid")])]) ],
        Return tt).
Proof.
  split_and!.
  - refine (proj1 (handle_request_rejects Samples.serialize Samples.message
                     Samples.controller "/issue/extra" (Return ∅) _) _);
      [vm_compute; reflexivity|].
    intros name Hne Hword Hpath.
    change ("/" +:+ name) with (String "/" name) in Hpath.
    injection Hpath as <-. vm_compute in Hword. discriminate.
  - refine (proj2 (handle_request_rejects Samples.serialize Samples.message
                     Samples.controller "/_fail" (Return ∅) _)
              "_fail" _ _ _ _);
      [vm_compute; reflexivity | discriminate | vm_compute; reflexivity
      | vm_compute; reflexivity | left; vm_compute; reflexivity].
  - refine (proj2 (handle_request_rejects Samples.serialize Samples.message
                     Samples.controller "/issue" (Return ∅) _)
              "issue" _ _ _ _);
      [vm_compute; reflexivity | discriminate | vm_compute; reflexivity
      | vm_compute; reflexivity | right; vm_compute; reflexivity].
Defined.

Lemma handle_request_failure_witness :
  RpcServer.handle_request Samples.serialize Samples.message
    {[ "refuse" := attr_function (Samples.fail Samples.controller_error) ]}
    "/refuse" (Return ∅)
  = ([ new_controller sample_json_formatter;
       call_operation (Samples.fail Samples.controller_error) ∅;
       send_headers 400;
       response_write_json
         (VDict [("error",
                  VDict [("code", VInt 201);
                         ("message", VStr "The asset could not be found.")])]) ],
     Return tt).
Proof.
  refine (proj2 (handle_request_failure Samples.serialize Samples.message
                   {[ "refuse" := attr_function (Samples.fail Samples.controller_error) ]}
                   "/refuse" "refuse" (Samples.fail Samples.controller_error)
                   Samples.controller_error _ _ _ _) _);
    [vm_compute; reflexivity.. | discriminate].
Defined.

Lemma handle_request_result_witness :
  RpcServer.handle_request Samples.serialize Samples.message
    {[ "leak" := attr_function Samples.leak ]} "/leak" (Return ∅)
  = ([ new_controller sample_json_formatter;
       call_operation Samples.leak ∅;
       send_headers 200;
       send_headers 500;
       response_write_json
         (VDict
            [("error",
              VDict [("code", VInt 0);
                     ("message", VStr "Internal server error");
                     ("details",
                      VStr "Object of type CTransaction is not JSON serializable")])]) ],
     Return tt).
Proof.
  apply (handle_request_result Samples.serialize Samples.message
           {[ "leak" := attr_function Samples.leak ]} "/leak" "leak" Samples.leak
           (VTransaction Samples.transaction));
    vm_compute; reflexivity.
Defined.

Lemma handle_request_body_failure_witness :
  RpcServer.handle_request Samples.serialize Samples.message Samples.controller
    "/show" (Raise (index_error "the body could not be read"))
  = ([ send_headers 500;
       response_write_json
         (VDict
            [("error",
              VDict [("code", VInt 0);
                     ("message", VStr "Internal server error");
                     ("details", VStr "the body could not be read")])]) ],
     Return tt).
Proof.
  apply (handle_request_body_failure Samples.serialize Samples.message
           Samples.controller "/show" "show" (attr_function Samples.show)
           (index_error "the body could not be read"));
    [vm_compute; reflexivity .. | discriminate].
Defined.

Lemma handle_request_calls_public_witness :
  exists name operation,
    RpcServer.search_operation "/show" = Some name
    /\ is_private name = false
    /\ getattr Samples.controller name = Some operation.
Proof.
  destruct (handle_request_calls_public Samples.serialize Samples.message
              Samples.controller "/show" (Return ∅)
              (call_operation Samples.show ∅) 1%nat)
    as [(name & operation & Hpath & Hprivate & Hattribute & _) _];
    [vm_compute; reflexivity | reflexivity |].
  by exists name, operation.
Defined.

Lemma handle_request_formatter_witness :
  exists after,
    (RpcServer.handle_request Samples.serialize Samples.message Samples.controller
       "/show" (Return (Samples.field "txformat" "raw"))).1
    = new_controller sample_json_formatter :: after.
Proof.
  destruct (handle_request_formatter Samples.serialize Samples.message
              Samples.controller "/show" "show" (attr_function Samples.show)
              (Samples.field "txformat" "raw"))
    as (after & Htrace & _); [vm_compute; reflexivity ..|].
  by exists after.
Defined.

Lemma handle_request_field_rejected_witness :
  RpcServer.handle_request Samples.serialize Samples.message Samples.controller
    "/echo" (Return (Samples.field "required_a" "x"))
  = ([ new_controller sample_json_formatter;
       send_headers 400;
       response_write_json invalid_parameters ],
     Return tt).
Proof.
  refine (proj2 (handle_request_field_rejected Samples.serialize Samples.message
                   Samples.controller "/echo" "echo" (attr_function Samples.echo)
                   (Samples.field "required_a" "x")
                   (String.list_byte_of_string "required_a") _ _ _ _));
    [vm_compute; reflexivity ..|].
  exists [String.list_byte_of_string "x"]. vm_compute. reflexivity.
Defined.


Lemma handle_request_formatted_witness :
  exists formatted,
    sample_json_formatter (VTransaction Samples.transaction) = Return formatted
    /\ RpcServer.handle_request Samples.serialize Samples.message Samples.controller
         "/show" (Return ∅)
       = ([ new_controller sample_json_formatter;
            call_operation Samples.show ∅;
            send_headers 200;
            response_write_json formatted ],
          Return tt).
Proof.
  eexists. split; [reflexivity|].
  apply (handle_request_formatted Samples.serialize Samples.message
           Samples.controller "/show" "show" Samples.show
           (VTransaction Samples.transaction));
    [vm_compute; reflexivity .. | left; reflexivity | reflexivity | reflexivity].
Defined.

(** *** Commands *)

Abbreviation echo_arguments :=
  [ Router.positional "required_a" None;
    Router.optional "--optional_b" None (VInt 5);
    Router.optional "--txformat"
      (Some "Format of transactions if a transaction is returned ('raw' or 'json')")
      (VStr "json") ].

Lemma echo_registrable : registrable Samples.echo.
Proof.
  split; [apply (bool_decide_unpack _); vm_compute; exact I|].
  intros p Hp _ _. apply list_elem_of_In in Hp. simpl in Hp.
  destruct Hp as [<-|[<-|[<-|[]]]]; split; discriminate.
Qed.

Lemma show_registrable : registrable Samples.show.
Proof.
  split; [apply (bool_decide_unpack _); vm_compute; exact I|].
  intros p Hp _ _. apply list_elem_of_In in Hp. simpl in Hp.
  destruct Hp as [<-|[]]; split; discriminate.
Qed.

Lemma sample_names (function : PyFunction) :
  Samples.controller !! "" <> Some (attr_function function).
Proof. vm_compute. discriminate. Qed.

Lemma sample_router :
  Router.__init__ Samples.message Samples.controller Samples.configuration
  = Return Samples.router.
Proof. vm_compute. reflexivity. Qed.

Lemma create_subparser_grammar_witness :
  Router._create_subparser Samples.message
    (Router.new_parser (__doc__ Samples.echo)) Samples.echo
  = Return {| Router.help := Some "Returns its second argument.";
              Router._func := Some (Router.func_execute_operation Samples.echo);
              Router.arguments := echo_arguments |}
  /\ Router.parse_arguments echo_arguments ["required_a"] false
       (Router.initial_namespace echo_arguments)
       ["VALUE_A"; "--optional_b"; "9"]
     = inl (Some {[ "required_a" := VStr "VALUE_A"; "optional_b" := VStr "9";
                    "txformat" := VStr "json" ]}).
Proof.
  destruct (create_subparser_grammar Samples.message (__doc__ Samples.echo)
              Samples.echo echo_registrable) as [Hgrammar Hexample].
  split; [exact Hgrammar|].
  apply (proj1 (proj2 (Hexample eq_refl))).
Defined.

(** C5, where it fails as stated: after the arguments of the two declared
    parameters the grammar has one transport option, not three. *)
Lemma create_subparser_appends_one_option :
  exists subparser,
    Router._create_subparser Samples.message
      (Router.new_parser (__doc__ Samples.echo)) Samples.echo
    = Return subparser
    /\ Router.arguments subparser
       = [ Router.positional "required_a" None;
           Router.optional "--optional_b" None (VInt 5) ]
         ++ [ Router.optional "--txformat"
                (Some "Format of transactions if a transaction is returned ('raw' or 'json')")
                (VStr "json") ]
    /\ ~ exists first second third,
           Router.arguments subparser
           = [ Router.positional "required_a" None;
               Router.optional "--optional_b" None (VInt 5) ]
             ++ [first; second; third].
Proof.
  eexists. split; [vm_compute; reflexivity|].
  split; [reflexivity|]. intros (first & second & third & H).
  vm_compute in H. discriminate.
Qed.

Lemma init_registers_public_functions_witness :
  exists self,
    Router.__init__ Samples.message
      {[ "echo" := attr_function Samples.echo;
         "_show" := attr_function Samples.show ]}
      Samples.configuration = Return self
    /\ Router.subparsers self !! "echo"
       = Some {| Router.help := Some "Returns its second argument.";
                 Router._func := Some (Router.func_execute_operation Samples.echo);
                 Router.arguments := echo_arguments |}
    /\ Router.subparsers self !! "_show" = None
    /\ Router.subparsers self !! "server" = Some Router.server_parser.
Proof.
  destruct (init_registers_public_functions Samples.message
              {[ "echo" := attr_function Samples.echo;
                 "_show" := attr_function Samples.show ]}
              Samples.configuration) as (self & Hinit & Hlookup).
  - intros function. vm_compute. discriminate.
  - intros name function Hfunction _.
    apply lookup_insert_Some in Hfunction as [[_ [= <-]] | [_ Hfunction]].
    + exact echo_registrable.
    + apply lookup_singleton_Some in Hfunction as [_ [= <-]].
      exact show_registrable.
  - exists self. split; [exact Hinit|].
    split_and!; rewrite Hlookup; vm_compute; reflexivity.
Defined.

(** C3, where it fails as stated: a function of the controller named [server]
    is registered as the command of that operation. *)
Lemma init_registers_function_named_server :
  exists self,
    Router.__init__ Samples.message {[ "server" := attr_function Samples.echo ]}
      Samples.configuration
    = Return self
    /\ Router.subparsers self !! "server"
       = Some {| Router.help := Some "Returns its second argument.";
                 Router._func := Some (Router.func_execute_operation Samples.echo);
                 Router.arguments := echo_arguments |}
    /\ Router.subparsers self !! "server" <> Some Router.server_parser.
Proof.
  eexists. split; [vm_compute; reflexivity|].
  split; [vm_compute; reflexivity|]. vm_compute. discriminate.
Qed.


Lemma execute_operation_failure_witness :
  Router._execute_operation Samples.serialize Samples.message
    (Samples.fail Samples.controller_error) {[ "txformat" := VStr "json" ]}
  = ([ new_controller sample_json_formatter;
       call_operation (Samples.fail Samples.controller_error)
         (delete "txformat" {[ "txformat" := VStr "json" ]});
       output_write ("Error: The asset could not be found." +:+ LF) ],
     Return tt).
Proof.
  apply (execute_operation_failure Samples.serialize Samples.message
           (Samples.fail Samples.controller_error)
           {[ "txformat" := VStr "json" ]} (VStr "json") Samples.controller_error);
    vm_compute; reflexivity.
Defined.

Lemma execute_operation_result_witness :
  Router._execute_operation Samples.serialize Samples.message Samples.leak
    {[ "txformat" := VStr "json" ]}
  = ([ new_controller sample_json_formatter;
       call_operation Samples.leak (delete "txformat" {[ "txformat" := VStr "json" ]}) ],
     Raise (type_error "Object of type CTransaction is not JSON serializable")).
Proof.
  apply (execute_operation_result Samples.serialize Samples.message Samples.leak
           {[ "txformat" := VStr "json" ]} (VStr "json")
           (VTransaction Samples.transaction));
    vm_compute; reflexivity.
Defined.

Lemma parse_calls_public_witness :
  is_private "show" = false
  /\ Samples.controller !! "show" = Some (attr_function Samples.show).
Proof.
  destruct (parse_calls_public Samples.serialize Samples.message Samples.controller
              Samples.configuration Samples.router ["show"]
              (Router._execute_operation Samples.serialize Samples.message
                 Samples.show {[ "txformat" := VStr "json" ]})
              Samples.show (delete "txformat" {[ "txformat" := VStr "json" ]}))
    as (command & words & tx_parser & after & Hargv & Hprivate & Hfunction & _).
  - exact sample_names.
  - exact sample_router.
  - vm_compute. reflexivity.
  - apply (list_elem_of_lookup_2 _ 1%nat). vm_compute. reflexivity.
  - injection Hargv as <- <-. by split.
Defined.

Lemma parse_rejects_unknown_command_witness :
  Router.parse Samples.serialize Samples.message Samples.router ["_fail"]
  = Some ([], Raise Router.system_exit)
  /\ Router.parse Samples.serialize Samples.message Samples.router ["version"]
     = Some ([], Raise Router.system_exit).
Proof.
  split.
  - apply (parse_rejects_unknown_command Samples.serialize Samples.message
             Samples.controller Samples.configuration Samples.router "_fail" []);
      [exact sample_names | exact sample_router | reflexivity | left; reflexivity].
  - apply (parse_rejects_unknown_command Samples.serialize Samples.message
             Samples.controller Samples.configuration Samples.router "version" []);
      [exact sample_names | exact sample_router | reflexivity |].
    right. split; [|discriminate]. intros function. vm_compute. discriminate.
Defined.

Lemma parse_words_witness :
  exists args,
    Router.parse Samples.serialize Samples.message Samples.router ["echo"; "VALUE_A"]
    = Some (Router._execute_operation Samples.serialize Samples.message
              Samples.echo args)
    /\ args !! "required_a" = Some (VStr "VALUE_A")
    /\ args !! "txformat" = Some (VStr "json").
Proof.
  destruct (proj2 (parse_words Samples.serialize Samples.message Samples.controller
                     Samples.configuration Samples.router "echo" Samples.echo
                     ["VALUE_A"] sample_names sample_router eq_refl eq_refl
                     ltac:(vm_compute; reflexivity)
                     ltac:(repeat constructor)) eq_refl)
    as (args & Hbound & Htxformat & Hrun & _).
  exists args. split_and!.
  - apply Hrun. apply (bool_decide_unpack _). vm_compute. exact I.
  - apply (Hbound ltac:(apply (bool_decide_unpack _); vm_compute; exact I)
             0%nat "required_a" "VALUE_A"); reflexivity.
  - apply Htxformat. apply (bool_decide_unpack _). vm_compute. exact I.
Defined.

Lemma parse_server_witness :
  Router.parse Samples.serialize Samples.message Samples.router ["server"; "now"]
  = Some ([], Raise Router.system_exit).
Proof.
  refine (proj2 (proj2 (parse_server Samples.serialize Samples.message
                          Samples.controller Samples.configuration Samples.router
                          "now" [] sample_names sample_router _)) _).
  - intros function. vm_compute. discriminate.
  - repeat constructor.
Defined.
